(** * near-lake-supervisor: the stall monitor of [main.go]

    A shallow embedding of the supervisor's code: the metric fetch
    ([queryBlockHeight], [queryBlockHeightText]), the restart command
    ([restartContainer]), the polling loop of [main] and [LoadConfig],
    followed by the properties of the specification that the code has,
    and the inputs at which it departs from it.

    Conventions.
    - A Go [string] is a sequence of bytes: [String.string].
    - [int64] block heights, [time.Time] instants and [time.Duration]s are
      integers ([Z]); instants and durations count nanoseconds.  The code
      only compares heights, and subtracts instants that are a few
      minutes apart, so no wrap-around or saturation is involved.
    - [float64] and the library functions [strconv.ParseFloat], the
      conversion [int64(value)], [json.Decoder.Decode] and
      [time.ParseDuration] are parameters of the development. *)

From Stdlib Require Import ZArith List String Ascii Bool Lia.
Import ListNotations.
Set Warnings "-register-all".
Open Scope string_scope.
Open Scope list_scope.
Open Scope Z_scope.

(** ** Strings: the functions of package [strings] used by the code *)

Module strings.

(** [strings.Split(s, "\n")]: the pieces of [s] between line feeds;
    one more piece than there are line feeds. *)
Fixpoint SplitLines (s : string) : list string :=
  match s with
  | EmptyString => [EmptyString]
  | String c rest =>
      if Ascii.eqb c "010"%char
      then EmptyString :: SplitLines rest
      else match SplitLines rest with
           | piece :: pieces => String c piece :: pieces
           | [] => [String c EmptyString]
           end
  end.

(** [strings.HasPrefix(s, prefix)]. *)
Definition HasPrefix (s pre : string) : bool := String.prefix pre s.

(** The number of bytes of the white space character at the head of
    [s], [0%nat] when [s] does not start with one.  White space is
    [unicode.IsSpace]: TAB, LF, VT, FF, CR, SPACE, U+0085, U+00A0,
    U+1680, U+2000..U+200A, U+2028, U+2029, U+202F, U+205F, U+3000, met
    here in their UTF-8 encodings. *)
Definition spaceLen (s : string) : nat :=
  match s with
  | EmptyString => 0%nat
  | String c0 r0 =>
      let b0 := N_of_ascii c0 in
      if ((9 <=? b0) && (b0 <=? 13) || (b0 =? 32))%N then 1%nat
      else match r0 with
           | EmptyString => 0%nat
           | String c1 r1 =>
               let b1 := N_of_ascii c1 in
               if ((b0 =? 194) && ((b1 =? 133) || (b1 =? 160)))%N then 2%nat
               else match r1 with
                    | EmptyString => 0%nat
                    | String c2 _ =>
                        let b2 := N_of_ascii c2 in
                        if ((b0 =? 225) && (b1 =? 154) && (b2 =? 128)
                            || (b0 =? 226) && (b1 =? 128)
                               && ((128 <=? b2) && (b2 <=? 138)
                                   || (b2 =? 168) || (b2 =? 169) || (b2 =? 175))
                            || (b0 =? 226) && (b1 =? 129) && (b2 =? 159)
                            || (b0 =? 227) && (b1 =? 128) && (b2 =? 128))%N
                        then 3%nat else 0%nat
                    end
           end
  end.

(** The field being collected is closed: it is a field when it is not
    empty. *)
Definition flush (field : string) : list string :=
  match field with
  | EmptyString => []
  | _ => [field]
  end.

(** The scan of [strings.Fields]: [skip] bytes of a white space
    character are still to be dropped, [field] is the field collected
    so far. *)
Fixpoint scanFields (skip : nat) (field : string) (s : string) : list string :=
  match s with
  | EmptyString => flush field
  | String c rest =>
      match skip with
      | S k => scanFields k field rest
      | O =>
          match spaceLen s with
          | O => scanFields 0 (field ++ String c EmptyString)%string rest
          | S k => flush field ++ scanFields k EmptyString rest
          end
      end
  end.

(** [strings.Fields(s)]: the maximal runs of non-space characters. *)
Definition Fields (s : string) : list string := scanFields 0 EmptyString s.

End strings.

(** ** Configuration *)

Record Config := {
  IndexerURL : string;
  QueryInterval : Z;
  StallTimeout : Z;
  RestartSleep : Z;
  ContainerName : string;
  MetricName : string
}.

(** ** The metric fetch *)

(** The result of [http.Get]: a transport error, or a response whose body
    is read later, which can fail too. *)
Inductive Body :=
| BodyBytes (content : string)
| BodyError (err : string).

Inductive HttpResult :=
| GetError (err : string)
| Response (StatusCode : Z) (body : Body).

Definition StatusOK : Z := 200.

(** The two URLs built with [fmt.Sprintf]. *)
Definition queryURL (config : Config) : string :=
  (IndexerURL config ++ "/api/v1/query?query=" ++ MetricName config)%string.

Definition metricsURL (config : Config) : string :=
  (IndexerURL config ++ "/metrics")%string.

(** The errors [queryBlockHeightText] builds with [fmt.Errorf]. *)
Inductive FetchError :=
| ErrFetchMetrics (err : string)        (* "failed to fetch metrics: %w" *)
| ErrMetricsStatus (StatusCode : Z)     (* "metrics endpoint returned status %d" *)
| ErrReadBody (err : string)            (* "failed to read response body: %w" *)
| ErrMetricNotFound (metricName : string). (* "metric %s not found in response" *)

(** A Go function returns, or panics and takes the process down. *)
Inductive Outcome (A : Type) :=
| Returned (a : A)
| Panicked (msg : string).
Arguments Returned {A} a.
Arguments Panicked {A} msg.

Section MetricFetcher.

Variable float64 : Type.

(** What [encoding/json] stores in an [interface{}]. *)
Inductive JSONValue :=
| JNull
| JBool (b : bool)
| JNumber (f : float64)
| JString (s : string)
| JArray (elems : list JSONValue)
| JObject (fields : list (string * JSONValue)).

Record PrometheusResult := {
  Metric : list (string * string);
  Value : list JSONValue
}.

Record PrometheusData := {
  ResultType : string;
  Result : list PrometheusResult
}.

Record PrometheusResponse := {
  Status : string;
  Data : PrometheusData
}.

(** [strconv.ParseFloat(s, 64)], [None] for its error. *)
Variable ParseFloat : string -> option float64.
(** The conversion [int64(value)]. *)
Variable int64_of_float : float64 -> Z.
(** [json.NewDecoder(body).Decode(&promResp)] on the bytes of a body,
    [None] for its error. *)
Variable Decode : string -> option PrometheusResponse.
(** The network during one fetch: the result of [http.Get] per URL. *)
Variable Get : string -> HttpResult.

(** The loop of [queryBlockHeightText] over the lines of the body. *)
Fixpoint scanLines (config : Config) (lines : list string) : FetchError + Z :=
  match lines with
  | [] => inl (ErrMetricNotFound (MetricName config))
  | line :: lines' =>
      if strings.HasPrefix line (MetricName config) then
        match strings.Fields line with
        | _ :: field :: _ =>
            match ParseFloat field with
            | None => scanLines config lines'
            | Some value => inr (int64_of_float value)
            end
        | _ => scanLines config lines'
        end
      else scanLines config lines'
  end.

Definition queryBlockHeightText (config : Config) : FetchError + Z :=
  let url := metricsURL config in
  match Get url with
  | GetError err => inl (ErrFetchMetrics err)
  | Response code body =>
      if negb (code =? StatusOK) then inl (ErrMetricsStatus code)
      else match body with
           | BodyError err => inl (ErrReadBody err)
           | BodyBytes content => scanLines config (strings.SplitLines content)
           end
  end.

(** [Decode] reads the body: a body that cannot be read does not
    decode. *)
Definition decodeBody (body : Body) : option PrometheusResponse :=
  match body with
  | BodyError _ => None
  | BodyBytes content => Decode content
  end.

Definition queryBlockHeight (config : Config) : Outcome (FetchError + Z) :=
  let url := queryURL config in
  match Get url with
  | GetError _ => Returned (queryBlockHeightText config)
  | Response code body =>
      if negb (code =? StatusOK) then Returned (queryBlockHeightText config)
      else
        match decodeBody body with
        | None => Returned (queryBlockHeightText config)
        | Some promResp =>
            if negb (String.eqb (Status promResp) "success")
               || (Nat.eqb (List.length (Result (Data promResp))) 0)
            then Returned (queryBlockHeightText config)
            else
              match Result (Data promResp) with
              | [] => Panicked "index out of range [0] with length 0"
              | first :: _ =>
                  match nth_error (Value first) 1 with
                  | None => Panicked "index out of range [1]"
                  | Some (JString valueStr) =>
                      match ParseFloat valueStr with
                      | None => Returned (queryBlockHeightText config)
                      | Some value => Returned (inr (int64_of_float value))
                      end
                  | Some _ => Returned (queryBlockHeightText config)
                  end
              end
        end
  end.

End MetricFetcher.

Arguments JNull {float64}.
Arguments JBool {float64} b.
Arguments JNumber {float64} f.
Arguments JString {float64} s.
Arguments JArray {float64} elems.
Arguments JObject {float64} fields.
Arguments scanLines {float64} ParseFloat int64_of_float config lines.
Arguments queryBlockHeightText {float64} ParseFloat int64_of_float Get config.
Arguments decodeBody {float64} Decode body.
Arguments queryBlockHeight {float64} ParseFloat int64_of_float Decode Get config.

(** ** The restart command *)

(** The result of [cmd.CombinedOutput()] for [docker restart]. *)
Record CmdResult := {
  output : string;
  cmdErr : option string
}.

Inductive RestartError :=
| ErrNoContainerName                              (* "container name not specified" *)
| ErrDockerRestart (err : string) (out : string). (* "docker restart failed: %w, output: %s" *)

(** The lines the program logs. *)
Inductive LogLine :=
| LogConfigNotFound (err : string)      (* "Config file not found, using defaults: %v" *)
| LogInitialFailed (err : FetchError)   (* "Warning: Failed to query block height: %v" *)
| LogInitialHeight (height : Z)         (* "Initial block height: %d" *)
| LogCooldownSkip                       (* "Still in restart cooldown period, skipping query" *)
| LogQueryError (err : FetchError)      (* "Error querying block height: %v" *)
| LogQueryFailing (timeout : Z)         (* "Block height query has been failing for %v, attempting restart" *)
| LogRestartError (err : RestartError)  (* "Error restarting container: %v" *)
| LogCooldownComplete                   (* "Restart cooldown complete, resuming monitoring" *)
| LogCurrent (height last : Z)          (* "Current block height: %d (last: %d)" *)
| LogProgressing (height : Z)           (* "Block height progressing: %d" *)
| LogStalled (height duration : Z)      (* "Block height stalled at %d for %v" *)
| LogStallRestart (duration threshold : Z) (* "Block height has been stalled for %v (threshold: %v), restarting container" *)
| LogDecreased (last height : Z)        (* "Warning: Block height decreased from %d to %d" *)
| LogRestarting (name : string)         (* "Restarting container: %s" *)
| LogDockerOutput (out : string).       (* "docker restart output: %s" *)

(** What the program does to the world, in order. *)
Inductive Effect :=
| EQuery                    (* a call of queryBlockHeight *)
| ERestart                  (* a call of restartContainer *)
| EDocker (name : string)   (* the command docker restart name is run *)
| EGo (sleep : Z)           (* a goroutine is started that sleeps, then clears isRestarting *)
| ELog (line : LogLine).

Definition restartContainer (config : Config) (docker : CmdResult)
  : option RestartError * list Effect :=
  if String.eqb (ContainerName config) "" then (Some ErrNoContainerName, [])
  else
    match cmdErr docker with
    | Some err =>
        (Some (ErrDockerRestart err (output docker)),
         [ELog (LogRestarting (ContainerName config)); EDocker (ContainerName config)])
    | None =>
        (None,
         [ELog (LogRestarting (ContainerName config)); EDocker (ContainerName config);
          ELog (LogDockerOutput (output docker))])
    end.

(** ** The polling loop of [main] *)

(** The variables of [main], and [sleeper]: the goroutine started after a
    successful restart, while it sleeps, with the instant from which its
    [time.Sleep] may return. *)
Record Monitor := {
  lastBlockHeight : Z;
  lastProgressTime : Z;
  isRestarting : bool;
  sleeper : option Z
}.

(** What one iteration of the loop meets: the result of the fetch, the
    clock read by [time.Since], the result of the docker command and the
    clock read by [time.Now()].  An iteration reads each at most once,
    and the second clock after the first. *)
Record Obs := {
  fetched : FetchError + Z;
  sinceClock : Z;
  docker : CmdResult;
  nowClock : Z
}.

(** Lines 79-89 and 108-118: the restart, and what follows its success. *)
Definition attemptRestart (config : Config) (s : Monitor) (o : Obs)
  : Monitor * list Effect :=
  match restartContainer config (docker o) with
  | (Some err, effs) => (s, ERestart :: effs ++ [ELog (LogRestartError err)])
  | (None, effs) =>
      ({| lastBlockHeight := lastBlockHeight s;
          lastProgressTime := nowClock o;
          isRestarting := true;
          sleeper := Some (nowClock o + RestartSleep config) |},
       ERestart :: effs ++ [EGo (RestartSleep config)])
  end.

(** One iteration of [for range ticker.C], lines 67-126. *)
Definition tick (config : Config) (s : Monitor) (o : Obs) : Monitor * list Effect :=
  if isRestarting s then (s, [ELog LogCooldownSkip])
  else
    match fetched o with
    | inl err =>
        if StallTimeout config <? sinceClock o - lastProgressTime s then
          let (s', effs) := attemptRestart config s o in
          (s', EQuery :: ELog (LogQueryError err)
                 :: ELog (LogQueryFailing (StallTimeout config)) :: effs)
        else (s, [EQuery; ELog (LogQueryError err)])
    | inr blockHeight =>
        let seen := [EQuery; ELog (LogCurrent blockHeight (lastBlockHeight s))] in
        if lastBlockHeight s <? blockHeight then
          ({| lastBlockHeight := blockHeight;
              lastProgressTime := nowClock o;
              isRestarting := isRestarting s;
              sleeper := sleeper s |},
           seen ++ [ELog (LogProgressing blockHeight)])
        else if blockHeight =? lastBlockHeight s then
          let stallDuration := sinceClock o - lastProgressTime s in
          let stalled := seen ++ [ELog (LogStalled blockHeight stallDuration)] in
          if StallTimeout config <? stallDuration then
            let (s', effs) := attemptRestart config s o in
            (s', stalled ++ ELog (LogStallRestart stallDuration (StallTimeout config)) :: effs)
          else (s, stalled)
        else
          ({| lastBlockHeight := blockHeight;
              lastProgressTime := nowClock o;
              isRestarting := isRestarting s;
              sleeper := sleeper s |},
           seen ++ [ELog (LogDecreased (lastBlockHeight s) blockHeight)])
    end.

(** Lines 84-88 and 113-117, after the sleep: the goroutine clears the
    flag. *)
Definition wake (s : Monitor) : Monitor * list Effect :=
  ({| lastBlockHeight := lastBlockHeight s;
      lastProgressTime := lastProgressTime s;
      isRestarting := false;
      sleeper := None |},
   [ELog LogCooldownComplete]).

(** Lines 50-65: the variables, and the query before the loop.
    [startClock] is the clock read at line 51. *)
Definition start (startClock : Z) (fetch : FetchError + Z) (nowClock : Z)
  : Monitor * list Effect :=
  match fetch with
  | inl err =>
      ({| lastBlockHeight := -1; lastProgressTime := startClock;
          isRestarting := false; sleeper := None |},
       [EQuery; ELog (LogInitialFailed err)])
  | inr blockHeight =>
      ({| lastBlockHeight := blockHeight; lastProgressTime := nowClock;
          isRestarting := false; sleeper := None |},
       [EQuery; ELog (LogInitialHeight blockHeight)])
  end.

(** The loop and the goroutine interleave: the ticker fires, or the
    goroutine's sleep ends at instant [t]. *)
Inductive Event :=
| Tick (o : Obs)
| Wake (t : Z).

Definition step (config : Config) (s : Monitor) (ev : Event) : Monitor * list Effect :=
  match ev with
  | Tick o => tick config s o
  | Wake _ => wake s
  end.

Fixpoint run (config : Config) (s : Monitor) (evs : list Event) : Monitor * list Effect :=
  match evs with
  | [] => (s, [])
  | ev :: evs' =>
      let (s1, effs1) := step config s ev in
      let (s2, effs2) := run config s1 evs' in
      (s2, effs1 ++ effs2)
  end.

(** A sequence of events the clock allows from instant [clock] on: clocks
    do not go back, and the goroutine wakes only if it was started, and
    not before its sleep is over. *)
Fixpoint timed (config : Config) (s : Monitor) (clock : Z) (evs : list Event) : bool :=
  match evs with
  | [] => true
  | Tick o :: evs' =>
      (clock <=? sinceClock o) && (sinceClock o <=? nowClock o)
      && timed config (fst (tick config s o)) (nowClock o) evs'
  | Wake t :: evs' =>
      (clock <=? t)
      && match sleeper s with Some ready => ready <=? t | None => false end
      && timed config (fst (wake s)) t evs'
  end.

Definition isRestart (e : Effect) : bool :=
  match e with ERestart => true | _ => false end.

Definition isQuery (e : Effect) : bool :=
  match e with EQuery => true | _ => false end.

(** The number of restart attempts, and of fetches, among effects. *)
Definition restarts (effs : list Effect) : nat := List.length (filter isRestart effs).
Definition queries (effs : list Effect) : nat := List.length (filter isQuery effs).

(** ** Loading the configuration *)

(** The errors of [viper.ReadInConfig]. *)
Inductive ReadError :=
| ConfigFileNotFoundError
| ConfigParseError (err : string)
| ConfigReadError (err : string).

(** The package-level viper instance as [LoadConfig] meets it: the result
    of [ReadInConfig], the struct and error [Unmarshal] leaves, and
    [GetString] (defaults, file and environment merged). *)
Record Viper := {
  ReadInConfig : option ReadError;
  Unmarshal : Config * option string;
  GetString : string -> string
}.

Definition readErrorText (e : ReadError) : string :=
  match e with
  | ConfigFileNotFoundError => "Config File Not Found"
  | ConfigParseError err => err
  | ConfigReadError err => err
  end.

Section Startup.

(** [time.ParseDuration], [None] for its error. *)
Variable ParseDuration : string -> option Z.

(** Lines 250-254 (and the two blocks after): a duration given as a
    non-empty string that parses replaces the field. *)
Definition durationOr (v : Viper) (key : string) (field : Z) : Z :=
  if String.eqb (GetString v key) "" then field
  else match ParseDuration (GetString v key) with
       | Some d => d
       | None => field
       end.

Definition LoadConfig (v : Viper) : Config * option string * list Effect :=
  let logs :=
    match ReadInConfig v with
    | Some err => [ELog (LogConfigNotFound (readErrorText err))]
    | None => []
    end in
  match Unmarshal v with
  | (config, Some err) => (config, Some err, logs)
  | (config, None) =>
      ({| IndexerURL := IndexerURL config;
          QueryInterval := durationOr v "queryInterval" (QueryInterval config);
          StallTimeout := durationOr v "stallTimeout" (StallTimeout config);
          RestartSleep := durationOr v "restartSleep" (RestartSleep config);
          ContainerName := ContainerName config;
          MetricName := MetricName config |},
       None, logs)
  end.

(** How [main] gets to its loop, lines 39-55. *)
Inductive Startup :=
| Fatal (err : string)          (* log.Fatalf("Failed to load config: %v", err) *)
| TickerPanic                   (* time.NewTicker panics on a non-positive interval *)
| Running (config : Config).

Definition startup (v : Viper) : Startup :=
  match LoadConfig v with
  | (_, Some err, _) => Fatal err
  | (config, None, _) =>
      if QueryInterval config <=? 0 then TickerPanic else Running config
  end.

End Startup.

(** ** The words of the specification, for comparison *)

Section FetchSpec.

Variable float64 : Type.
Variable ParseFloat : string -> option float64.
Variable int64_of_float : float64 -> Z.
Variable Decode : string -> option (PrometheusResponse float64).
Variable Get : string -> HttpResult.

(** The line carries the value [v] for the metric: it starts with the
    metric name, has a second field, and that field parses to [v]. *)
Definition carries (config : Config) (line : string) (v : float64) : Prop :=
  strings.HasPrefix line (MetricName config) = true
  /\ exists name field more,
       strings.Fields line = name :: field :: more
       /\ ParseFloat field = Some v.

(** The text fetch as the specification words it: the first line with
    the prefix is the one used; its second field is parsed, and the
    fetch fails when that field is absent or does not parse. *)
Definition spec_firstLineDecides (config : Config) (lines : list string)
  : FetchError + Z :=
  match find (fun line => strings.HasPrefix line (MetricName config)) lines with
  | None => inl (ErrMetricNotFound (MetricName config))
  | Some line =>
      match strings.Fields line with
      | _ :: field :: _ =>
          match ParseFloat field with
          | Some value => inr (int64_of_float value)
          | None => inl (ErrMetricNotFound (MetricName config))
          end
      | _ => inl (ErrMetricNotFound (MetricName config))
      end
  end.

(** The failures of the structured query that the specification lists:
    transport, HTTP status, decoding, the status field, an empty result
    set, and a value that is not a string or does not parse. *)
Inductive StructuredFailure (config : Config) : Prop :=
| TransportFails (err : string) :
    Get (queryURL config) = GetError err ->
    StructuredFailure config
| StatusNotOK (code : Z) (body : Body) :
    Get (queryURL config) = Response code body ->
    code <> StatusOK ->
    StructuredFailure config
| Undecodable (body : Body) :
    Get (queryURL config) = Response StatusOK body ->
    decodeBody Decode body = None ->
    StructuredFailure config
| StatusNotSuccess (body : Body) (promResp : PrometheusResponse float64) :
    Get (queryURL config) = Response StatusOK body ->
    decodeBody Decode body = Some promResp ->
    Status _ promResp <> "success" ->
    StructuredFailure config
| EmptyResultSet (body : Body) (promResp : PrometheusResponse float64) :
    Get (queryURL config) = Response StatusOK body ->
    decodeBody Decode body = Some promResp ->
    Result _ (Data _ promResp) = [] ->
    StructuredFailure config
| ValueNotString (body : Body) (promResp : PrometheusResponse float64)
                 first others (v : JSONValue float64) :
    Get (queryURL config) = Response StatusOK body ->
    decodeBody Decode body = Some promResp ->
    Status _ promResp = "success" ->
    Result _ (Data _ promResp) = first :: others ->
    nth_error (Value _ first) 1 = Some v ->
    (forall valueStr, v <> JString valueStr) ->
    StructuredFailure config
| ValueUnparsable (body : Body) (promResp : PrometheusResponse float64)
                  first others (valueStr : string) :
    Get (queryURL config) = Response StatusOK body ->
    decodeBody Decode body = Some promResp ->
    Status _ promResp = "success" ->
    Result _ (Data _ promResp) = first :: others ->
    nth_error (Value _ first) 1 = Some (JString valueStr) ->
    ParseFloat valueStr = None ->
    StructuredFailure config.

End FetchSpec.

Arguments carries {float64} ParseFloat config line v.
Arguments spec_firstLineDecides {float64} ParseFloat int64_of_float config lines.
Arguments StructuredFailure {float64} ParseFloat Decode Get config.

(** The stalled tick is overdue: more than the stall timeout has passed
    since the last progress. *)
Definition overdue (config : Config) (s : Monitor) (o : Obs) : bool :=
  StallTimeout config <? sinceClock o - lastProgressTime s.


(** ** Data for examples *)

Module Sample.

Definition second : Z := 1000000000.

(** The defaults of [LoadConfig]. *)
Definition defaults : Config :=
  {| IndexerURL := "http://indexer:3030";
     QueryInterval := 30 * second;
     StallTimeout := 300 * second;
     RestartSleep := 900 * second;
     ContainerName := "near-lake-indexer";
     MetricName := "near_indexer_streaming_current_block_height" |}.

(** The configuration of the boundary scenario: a stall timeout of one
    minute. *)
Definition minute : Config :=
  {| IndexerURL := "http://indexer:3030";
     QueryInterval := 30 * second;
     StallTimeout := 60 * second;
     RestartSleep := 900 * second;
     ContainerName := "near-lake-indexer";
     MetricName := "near_indexer_streaming_current_block_height" |}.

(** No container is named. *)
Definition unnamed : Config :=
  {| IndexerURL := "http://indexer:3030";
     QueryInterval := 30 * second;
     StallTimeout := 300 * second;
     RestartSleep := 900 * second;
     ContainerName := "";
     MetricName := "near_indexer_streaming_current_block_height" |}.

Definition dockerOK : CmdResult :=
  {| output := "near-lake-indexer"; cmdErr := None |}.

(** A tick at [t] seconds whose fetch returns [height]; the restart
    command, if run, succeeds. *)
Definition sample (height : Z) (t : Z) : Obs :=
  {| fetched := inr height; sinceClock := t * second;
     docker := dockerOK; nowClock := t * second |}.

(** A tick at [t] seconds whose fetch fails. *)
Definition failing (t : Z) : Obs :=
  {| fetched := inl (ErrFetchMetrics "connection refused"); sinceClock := t * second;
     docker := dockerOK; nowClock := t * second |}.

(** [n] ticks, every [period] seconds from [t] seconds on, all fetching
    [height]. *)
Fixpoint samples (height : Z) (t period : Z) (n : nat) : list Obs :=
  match n with
  | O => []
  | S n' => sample height t :: samples height (t + period) period n'
  end.

(** The monitor after a first query at instant 0 that returned 100. *)
Definition at100 : Monitor := fst (start 0 (inr 100) 0).

(** A stalled indexer under the default configuration: height 100 at
    every tick, every 30 seconds; the tick at 330 s restarts the
    container; the ticks up to 1230 s are skipped; the goroutine clears
    the flag at 1230 s. *)
Definition stalledUntilWake : list Event :=
  map Tick (samples 100 30 30 41) ++ [Wake (1230 * second)].

(** [strconv.ParseFloat] followed by [int64(value)] on the numerals
    digits[.digits]: the numeral is kept as its digits and the number
    of decimals.  Other strings are rejected here, several of which
    [strconv.ParseFloat] accepts: an instance for examples only. *)
Definition numeral : Type := Z * nat.

Fixpoint readDigits (acc : Z) (decimals : option nat) (seen : bool) (s : string)
  : option numeral :=
  match s with
  | EmptyString =>
      if seen then Some (acc, match decimals with Some k => k | None => O end) else None
  | String c rest =>
      let b := Z.of_N (N_of_ascii c) in
      if (48 <=? b) && (b <=? 57)
      then readDigits (10 * acc + (b - 48)) (option_map S decimals) true rest
      else if (b =? 46) && match decimals with None => true | Some _ => false end
      then readDigits acc (Some O) seen rest
      else None
  end.

Definition ParseFloat (s : string) : option numeral := readDigits 0 None false s.

Definition int64_of_float (f : numeral) : Z := Z.quot (fst f) (10 ^ Z.of_nat (snd f)).

Definition nl : string := String "010"%char EmptyString.

(** A body whose first line with the metric's prefix has no value. *)
Definition bodyNoValue : string :=
  ("# TYPE near_indexer_streaming_current_block_height gauge" ++ nl ++
   "near_indexer_streaming_current_block_height" ++ nl ++
   "near_indexer_streaming_current_block_height 42" ++ nl)%string.

(** A body whose first line with the metric's prefix has a second field
    that is not a number. *)
Definition bodyBadValue : string :=
  ("near_indexer_streaming_current_block_height_info up" ++ nl ++
   "near_indexer_streaming_current_block_height 42.0" ++ nl)%string.

(** The structured endpoint answers 500, the text endpoint answers with
    [body]. *)
Definition textOnly (body : string) (url : string) : HttpResult :=
  if String.eqb url (metricsURL defaults)
  then Response 200 (BodyBytes body)
  else Response 500 (BodyBytes "").

(** Nothing answers. *)
Definition unreachable (url : string) : HttpResult := GetError "connection refused".

Definition noJSON (content : string) : option (PrometheusResponse numeral) := None.

(** Every body decodes to a successful answer whose one result has a
    value array with the timestamp alone. *)
Definition shortValue (content : string) : option (PrometheusResponse numeral) :=
  Some {| Status := "success";
          Data := {| ResultType := "vector";
                     Result := [ {| Metric := []; Value := [JNumber (1700000000, O)] |} ] |} |}.

(** Both endpoints answer 200 with [body]. *)
Definition always (body : string) (url : string) : HttpResult :=
  Response 200 (BodyBytes body).

(** [time.ParseDuration] on the three default strings. *)
Definition ParseDuration (s : string) : option Z :=
  if String.eqb s "30s" then Some (30 * second)
  else if String.eqb s "5m" then Some (300 * second)
  else if String.eqb s "900s" then Some (900 * second)
  else None.

(** viper when [config/local.yaml] is there and is not YAML: reading
    fails with a parse error, and the defaults are all there is. *)
Definition malformedFile : Viper :=
  {| ReadInConfig := Some (ConfigParseError "While parsing config: yaml: did not find expected key");
     Unmarshal := (defaults, None);
     GetString := fun key =>
       if String.eqb key "queryInterval" then "30s"
       else if String.eqb key "stallTimeout" then "5m"
       else if String.eqb key "restartSleep" then "900s"
       else if String.eqb key "indexerURL" then "http://indexer:3030"
       else if String.eqb key "metricName" then "near_indexer_streaming_current_block_height"
       else if String.eqb key "containerName" then "near-lake-indexer"
       else "" |}.

(** viper when there is no [config/local.yaml]. *)
Definition missingFile : Viper :=
  {| ReadInConfig := Some ConfigFileNotFoundError;
     Unmarshal := Unmarshal malformedFile;
     GetString := GetString malformedFile |}.

(** viper when the file sets [stallTimeout: soon]: the decoding of the
    struct fails. *)
Definition badDuration : Viper :=
  {| ReadInConfig := None;
     Unmarshal := (defaults, Some "error decoding 'stallTimeout': time: invalid duration");
     GetString := GetString malformedFile |}.

End Sample.

(** ** Measures and invariants of a run *)

Definition isDocker (e : Effect) : bool :=
  match e with EDocker _ => true | _ => false end.

Definition isGo (e : Effect) : bool :=
  match e with EGo _ => true | _ => false end.

(** The number of docker commands run, and of goroutines started, among
    effects. *)
Definition dockers (effs : list Effect) : nat := List.length (filter isDocker effs).
Definition goroutines (effs : list Effect) : nat := List.length (filter isGo effs).

(** The number of times the ticker fired. *)
Fixpoint ticks (evs : list Event) : nat :=
  match evs with
  | [] => O
  | Tick _ :: evs' => S (ticks evs')
  | Wake _ :: evs' => ticks evs'
  end.

(** The clock after a sequence of events that began at [clock]. *)
Fixpoint clockAfter (clock : Z) (evs : list Event) : Z :=
  match evs with
  | [] => clock
  | Tick o :: evs' => clockAfter (nowClock o) evs'
  | Wake t :: evs' => clockAfter t evs'
  end.

(** The flag is set exactly while a goroutine sleeps. *)
Definition paired (s : Monitor) : Prop :=
  isRestarting s = true <-> sleeper s <> None.

(** The tick finds no progress: the fetch failed, or returned the
    recorded height. *)
Definition noProgress (s : Monitor) (o : Obs) : Prop :=
  fetched o = inr (lastBlockHeight s) \/ exists err, fetched o = inl err.

(** A restart succeeded at instant [t], and [clock] is now: the progress
    time is not before [t]; in the cooldown the goroutine sleeps until
    [t] plus the cooldown at least; out of it that instant has passed. *)
Definition restartedAt (config : Config) (t : Z) (s : Monitor) (clock : Z) : Prop :=
  t <= lastProgressTime s
  /\ if isRestarting s
     then exists ready, sleeper s = Some ready /\ t + RestartSleep config <= ready
     else t + RestartSleep config <= clock.

(** ** Lines and fields *)

Definition LF : string := String "010"%char EmptyString.

(** [strings.Join(lines, "\n")]. *)
Fixpoint joinLines (lines : list string) : string :=
  match lines with
  | [] => EmptyString
  | [line] => line
  | line :: lines' => (line ++ LF ++ joinLines lines')%string
  end.

(** The string has a line feed. *)
Fixpoint hasLF (s : string) : bool :=
  match s with
  | EmptyString => false
  | String c rest => Ascii.eqb c "010"%char || hasLF rest
  end.

(** TAB, LF, VT, FF, CR or SPACE. *)
Definition asciiSpace (c : ascii) : bool :=
  let b := N_of_ascii c in ((9 <=? b) && (b <=? 13) || (b =? 32))%N.

(** An ASCII byte that is not white space. *)
Definition plainByte (c : ascii) : bool :=
  (N_of_ascii c <? 128)%N && negb (asciiSpace c).

Fixpoint allBytes (p : ascii -> bool) (s : string) : bool :=
  match s with
  | EmptyString => true
  | String c rest => p c && allBytes p rest
  end.

(** A word of ASCII bytes without white space, as metric names, label
    sets and numerals are. *)
Definition plain (s : string) : bool := allBytes plainByte s.

(** What may follow the value on a line: nothing, or an ASCII white
    space byte (a space before a timestamp, a carriage return) and
    anything. *)
Definition lineRest (s : string) : Prop :=
  s = EmptyString \/ exists c more, s = String c more /\ asciiSpace c = true.

(** ** More data for examples *)

Module Scenario.

(** Every body decodes to a successful answer with one result, at height
    4217.9. *)
Definition goodAnswer (content : string) : option (PrometheusResponse Sample.numeral) :=
  Some {| Status := "success";
          Data := {| ResultType := "vector";
                     Result := [ {| Metric := [("job", "indexer")];
                                    Value := [JNumber (1700000000, O); JString "4217.9"] |} ] |} |}.

Definition quote : string := String (ascii_of_nat 34) EmptyString.

(** A text exposition with a comment, another metric, the metric with a
    label set and a timestamp, and a later sample of it. *)
Definition exposition : string :=
  ("# HELP near_indexer_streaming_current_block_height Current height" ++ LF ++
   "near_block_processing_time_sum 12.5" ++ LF ++
   "near_indexer_streaming_current_block_height{shard=" ++ quote ++ "0" ++ quote ++ "}"
     ++ " 118.0 1700000000" ++ LF ++
   "near_indexer_streaming_current_block_height 7" ++ LF)%string.

(** viper with the defaults and a query interval of zero. *)
(** A successful answer of the structured endpoint whose one result has
    a value array with the timestamp alone. *)
Definition shortJSON : string :=
  ("{" ++ quote ++
   "status" ++ quote ++
   ":" ++ quote ++
   "success" ++ quote ++
   "," ++ quote ++
   "data" ++ quote ++
   ":{" ++ quote ++
   "resultType" ++ quote ++
   ":" ++ quote ++
   "vector" ++ quote ++
   "," ++ quote ++
   "result" ++ quote ++
   ":[{" ++ quote ++
   "metric" ++ quote ++
   ":{}," ++ quote ++
   "value" ++ quote ++
   ":[1700000000]}]}}")%string.

(** The structured endpoint answers 200 with a successful result whose
    value array holds the timestamp alone, which [Sample.shortValue]
    decodes; the text endpoint answers 200 with the metric at 7. *)
Definition shortAnswer (url : string) : HttpResult :=
  if String.eqb url (metricsURL Sample.defaults)
  then Response 200 (BodyBytes "near_indexer_streaming_current_block_height 7")
  else Response 200 (BodyBytes shortJSON).

Definition zeroInterval : Viper :=
  {| ReadInConfig := None;
     Unmarshal := (Sample.defaults, None);
     GetString := fun key =>
       if String.eqb key "queryInterval" then "0s" else GetString Sample.malformedFile key |}.

(** [time.ParseDuration] on the default strings and on "0s". *)
Definition ParseDuration (s : string) : option Z :=
  if String.eqb s "0s" then Some 0 else Sample.ParseDuration s.

End Scenario.

(** ** The order of what a run does *)

(** The last thing done, log lines apart. *)
Inductive Action :=
| NoAction
| Queried
| Restarted
| DockerCalled
| GoStarted.

Definition actionOf (last : Action) (e : Effect) : Action :=
  match e with
  | EQuery => Queried
  | ERestart => Restarted
  | EDocker _ => DockerCalled
  | EGo _ => GoStarted
  | ELog _ => last
  end.

Fixpoint lastAction (last : Action) (effs : list Effect) : Action :=
  match effs with
  | [] => last
  | e :: effs' => lastAction (actionOf last e) effs'
  end.

(** The effect may come next: a call of [restartContainer] right after a
    fetch, the docker command right after that call, the goroutine right
    after the docker command; a fetch and a log line at any time. *)
Definition follows (last : Action) (e : Effect) : bool :=
  match e with
  | ERestart => match last with Queried => true | _ => false end
  | EDocker _ => match last with Restarted => true | _ => false end
  | EGo _ => match last with DockerCalled => true | _ => false end
  | EQuery => true
  | ELog _ => true
  end.

Fixpoint inOrder (last : Action) (effs : list Effect) : bool :=
  match effs with
  | [] => true
  | e :: effs' => follows last e && inOrder (actionOf last e) effs'
  end.

(** * Properties *)

(** ** Counting effects *)

Lemma restarts_app (a b : list Effect) :
  restarts (a ++ b) = (restarts a + restarts b)%nat.
Proof.
  unfold restarts. now rewrite filter_app, length_app.
Qed.

(** [restartContainer] itself calls no restart and no fetch: what it does
    is log and run docker. *)
Lemma restartContainer_effects (config : Config) (d : CmdResult) :
  restarts (snd (restartContainer config d)) = 0%nat
  /\ queries (snd (restartContainer config d)) = 0%nat.
Proof.
  unfold restartContainer.
  destruct (String.eqb (ContainerName config) ""); [now split|].
  destruct (cmdErr d); now split.
Qed.

(** A call of [attemptRestart] is one restart attempt. *)
Lemma attemptRestart_restarts (config : Config) (s : Monitor) (o : Obs) :
  restarts (snd (attemptRestart config s o)) = 1%nat.
Proof.
  unfold attemptRestart.
  pose proof (restartContainer_effects config (docker o)) as [Hr _].
  destruct (restartContainer config (docker o)) as [[err|] effs]; simpl in *;
    change (ERestart :: ?l) with ([ERestart] ++ l);
    rewrite !restarts_app, Hr; reflexivity.
Qed.

(** The state after [attemptRestart], by the result of the command. *)
Lemma attemptRestart_state (config : Config) (s : Monitor) (o : Obs) :
  fst (attemptRestart config s o) =
  match fst (restartContainer config (docker o)) with
  | Some _ => s
  | None => {| lastBlockHeight := lastBlockHeight s;
               lastProgressTime := nowClock o;
               isRestarting := true;
               sleeper := Some (nowClock o + RestartSleep config) |}
  end.
Proof.
  unfold attemptRestart.
  now destruct (restartContainer config (docker o)) as [[err|] effs].
Qed.

(** The restart attempts of a tick: one when the monitor is not cooling
    down, the fetch failed or returned the recorded height, and the tick
    is overdue; none otherwise. *)
Lemma tick_restarts (config : Config) (s : Monitor) (o : Obs) :
  restarts (snd (tick config s o)) =
  if isRestarting s then 0%nat
  else match fetched o with
       | inl _ => if overdue config s o then 1%nat else 0%nat
       | inr height =>
           if height =? lastBlockHeight s
           then if overdue config s o then 1%nat else 0%nat
           else 0%nat
       end.
Proof.
  unfold tick, overdue.
  destruct (isRestarting s); [reflexivity|].
  pose proof (attemptRestart_restarts config s o) as Hatt.
  destruct (fetched o) as [err|height].
  - destruct (StallTimeout config <? sinceClock o - lastProgressTime s);
      [|reflexivity].
    destruct (attemptRestart config s o) as [s' effs]; simpl in *.
    change (EQuery :: ?a :: ?b :: effs) with ([EQuery; a; b] ++ effs).
    now rewrite restarts_app, Hatt.
  - destruct (lastBlockHeight s <? height) eqn:Hlt.
    + assert ((height =? lastBlockHeight s) = false) as -> by lia. reflexivity.
    + destruct (height =? lastBlockHeight s); [|reflexivity].
      destruct (StallTimeout config <? sinceClock o - lastProgressTime s);
        [|reflexivity].
      destruct (attemptRestart config s o) as [s' effs]; simpl in *.
      change (EQuery :: ?a :: ?b :: ?c :: effs) with ([EQuery; a; b; c] ++ effs).
      now rewrite restarts_app, Hatt.
Qed.

(** A tick in the cooldown does nothing but log that it is skipped. *)
Lemma tick_cooldown (config : Config) (s : Monitor) (o : Obs) :
  isRestarting s = true -> tick config s o = (s, [ELog LogCooldownSkip]).
Proof.
  intros H. unfold tick. now rewrite H.
Qed.

(** Ticks alone never leave the cooldown. *)
Lemma run_cooldown (config : Config) (s : Monitor) (obs : list Obs) :
  isRestarting s = true ->
  fst (run config s (map Tick obs)) = s
  /\ restarts (snd (run config s (map Tick obs))) = 0%nat
  /\ queries (snd (run config s (map Tick obs))) = 0%nat.
Proof.
  intros H. induction obs as [|o obs IH]; simpl; [now repeat split|].
  rewrite (tick_cooldown config s o H).
  destruct (run config s (map Tick obs)) as [s2 effs2]; simpl in *.
  exact IH.
Qed.

(** ** The cooldown *)

(** C2. While [isRestarting] is set, a tick fetches nothing and restarts
    nothing, whatever it would have observed, and leaves the monitor as it
    is; so does any number of ticks; and the only event after which the
    flag is clear is the end of the goroutine's sleep. *)
Theorem cooldown_skips_evaluation (config : Config) (s : Monitor) :
  isRestarting s = true ->
  (forall o, fst (tick config s o) = s
             /\ queries (snd (tick config s o)) = 0%nat
             /\ restarts (snd (tick config s o)) = 0%nat)
  /\ (forall obs, fst (run config s (map Tick obs)) = s
                  /\ queries (snd (run config s (map Tick obs))) = 0%nat
                  /\ restarts (snd (run config s (map Tick obs))) = 0%nat)
  /\ (forall ev, isRestarting (fst (step config s ev)) = false ->
                 exists t, ev = Wake t).
Proof.
  intros H. split; [|split].
  - intros o. rewrite (tick_cooldown config s o H). now repeat split.
  - intros obs. destruct (run_cooldown config s obs H) as (? & ? & ?).
    now repeat split.
  - intros [o|t] Hclear.
    + simpl in Hclear. rewrite (tick_cooldown config s o H) in Hclear.
      simpl in Hclear. congruence.
    + now exists t.
Qed.

Lemma cooldown_skips_evaluation_witness :
  let s := fst (tick Sample.minute Sample.at100 (Sample.sample 100 90)) in
  isRestarting s = true
  /\ fst (tick Sample.minute s (Sample.failing 2000)) = s
  /\ queries (snd (tick Sample.minute s (Sample.failing 2000))) = 0%nat
  /\ restarts (snd (tick Sample.minute s (Sample.failing 2000))) = 0%nat.
Proof.
  assert (isRestarting (fst (tick Sample.minute Sample.at100 (Sample.sample 100 90))) = true)
    as H by reflexivity.
  split; [exact H|].
  exact (proj1 (cooldown_skips_evaluation Sample.minute _ H) (Sample.failing 2000)).
Defined.

(** ** Restart attempts that fail *)

(** A tick that attempts a restart leaves the monitor as the restart
    leaves it. *)
Lemma tick_state_after_attempt (config : Config) (s : Monitor) (o : Obs) :
  restarts (snd (tick config s o)) = 1%nat ->
  fst (tick config s o) = fst (attemptRestart config s o).
Proof.
  rewrite tick_restarts. unfold tick, overdue.
  destruct (isRestarting s); [discriminate|].
  destruct (fetched o) as [err|height].
  - destruct (StallTimeout config <? sinceClock o - lastProgressTime s);
      [|discriminate].
    intros _. now destruct (attemptRestart config s o).
  - destruct (height =? lastBlockHeight s) eqn:Heq; [|discriminate].
    assert ((lastBlockHeight s <? height) = false) as -> by lia.
    destruct (StallTimeout config <? sinceClock o - lastProgressTime s);
      [|discriminate].
    intros _. now destruct (attemptRestart config s o).
Qed.

(** C5. At a tick that attempts a restart, from the failed fetches or
    from the stalled height: if [restartContainer] returns an error, the
    monitor is left exactly as it was (height, progress time, flag, no
    goroutine), and a next tick that again fails to fetch or meets the
    same height, at the same clock or later, attempts the restart again;
    if it returns no error, the progress time becomes the clock read
    after it and the cooldown begins. *)
Theorem failed_restart_leaves_state (config : Config) (s : Monitor) (o : Obs) :
  restarts (snd (tick config s o)) = 1%nat ->
  match fst (restartContainer config (docker o)) with
  | Some _ =>
      fst (tick config s o) = s
      /\ forall o',
           (fetched o' = inr (lastBlockHeight s) \/ exists err, fetched o' = inl err) ->
           sinceClock o <= sinceClock o' ->
           restarts (snd (tick config (fst (tick config s o)) o')) = 1%nat
  | None =>
      lastProgressTime (fst (tick config s o)) = nowClock o
      /\ isRestarting (fst (tick config s o)) = true
      /\ lastBlockHeight (fst (tick config s o)) = lastBlockHeight s
  end.
Proof.
  intros Hatt.
  rewrite (tick_state_after_attempt config s o Hatt), attemptRestart_state.
  destruct (fst (restartContainer config (docker o))) as [err|];
    [|now repeat split].
  split; [reflexivity|].
  intros o' Hfetch Hclock.
  rewrite tick_restarts in Hatt |- *.
  destruct (isRestarting s); [discriminate|].
  assert (overdue config s o = true) as Hover.
  { destruct (fetched o) as [e|h]; [|destruct (h =? lastBlockHeight s)];
      destruct (overdue config s o); easy. }
  assert (overdue config s o' = true) as -> by (unfold overdue in *; lia).
  destruct Hfetch as [-> | [e ->]]; [|reflexivity].
  now rewrite Z.eqb_refl.
Qed.

Lemma failed_restart_leaves_state_witness :
  let s := Sample.at100 in
  let o := Sample.sample 100 330 in
  restarts (snd (tick Sample.unnamed s o)) = 1%nat
  /\ fst (tick Sample.unnamed s o) = s
  /\ restarts (snd (tick Sample.unnamed (fst (tick Sample.unnamed s o))
                      (Sample.failing 360))) = 1%nat.
Proof.
  assert (restarts (snd (tick Sample.unnamed Sample.at100 (Sample.sample 100 330))) = 1%nat)
    as H by reflexivity.
  pose proof (failed_restart_leaves_state Sample.unnamed Sample.at100
                (Sample.sample 100 330) H) as [Hs Hretry].
  split; [exact H|]. split; [exact Hs|].
  apply Hretry.
  - right. eexists. reflexivity.
  - vm_compute. discriminate.
Defined.

(** ** A height below the recorded one *)

(** C8. A fetch that returns less than the recorded height, outside the
    cooldown, is recorded as the new height, the progress time becomes the
    clock of the tick, the warning is logged, and no restart is attempted,
    however long ago the last progress was. *)
Theorem decrease_is_absorbed (config : Config) (s : Monitor) (o : Obs) (height : Z) :
  isRestarting s = false ->
  fetched o = inr height ->
  height < lastBlockHeight s ->
  lastBlockHeight (fst (tick config s o)) = height
  /\ lastProgressTime (fst (tick config s o)) = nowClock o
  /\ isRestarting (fst (tick config s o)) = false
  /\ In (ELog (LogDecreased (lastBlockHeight s) height)) (snd (tick config s o))
  /\ restarts (snd (tick config s o)) = 0%nat.
Proof.
  intros Hcool Hfetch Hlt.
  rewrite tick_restarts. unfold tick. rewrite Hcool, Hfetch.
  assert ((lastBlockHeight s <? height) = false) as -> by lia.
  assert ((height =? lastBlockHeight s) = false) as -> by lia.
  simpl. repeat split; auto.
Qed.

Lemma decrease_is_absorbed_witness :
  let r := tick Sample.defaults Sample.at100 (Sample.sample 7 3000) in
  lastBlockHeight (fst r) = 7
  /\ lastProgressTime (fst r) = nowClock (Sample.sample 7 3000)
  /\ isRestarting (fst r) = false
  /\ In (ELog (LogDecreased 100 7)) (snd r)
  /\ restarts (snd r) = 0%nat.
Proof.
  apply (decrease_is_absorbed Sample.defaults Sample.at100 (Sample.sample 7 3000) 7).
  - reflexivity.
  - reflexivity.
  - vm_compute. reflexivity.
Defined.

(** ** Heights that only grow *)

Lemma run_cons (config : Config) (s : Monitor) (ev : Event) (evs : list Event) :
  run config s (ev :: evs) =
  (fst (run config (fst (step config s ev)) evs),
   snd (step config s ev) ++ snd (run config (fst (step config s ev)) evs)).
Proof.
  simpl. destruct (step config s ev) as [s1 effs1]; simpl.
  now destruct (run config s1 evs).
Qed.

Lemma run_app (config : Config) (s : Monitor) (pre post : list Event) :
  run config s (pre ++ post) =
  (fst (run config (fst (run config s pre)) post),
   snd (run config s pre) ++ snd (run config (fst (run config s pre)) post)).
Proof.
  revert s. induction pre as [|ev pre IH]; intros s.
  - simpl. now destruct (run config s post).
  - rewrite <- app_comm_cons, !run_cons, IH. simpl. now rewrite app_assoc.
Qed.






(** ** The height -1 that stands for no height *)

(** C10. After a first query that failed the recorded height is -1 and
    the progress time is the start of the program.  The first fetch that
    succeeds in the loop is compared with -1 like any recorded height:
    above -1 it is progress; equal to -1 it is a stall (the progress time
    stays the start of the program, and a restart is attempted exactly
    when the tick is overdue); below -1 it is a decrease, logged with the
    warning. Neither of the last two is logged as progress. *)
Theorem sentinel_is_compared (config : Config) (startClock now0 : Z)
        (err : FetchError) (o : Obs) (height : Z) :
  fetched o = inr height ->
  let s0 := fst (start startClock (inl err) now0) in
  let r := tick config s0 o in
  lastBlockHeight s0 = -1
  /\ lastProgressTime s0 = startClock
  /\ (-1 < height ->
      In (ELog (LogProgressing height)) (snd r)
      /\ lastBlockHeight (fst r) = height
      /\ lastProgressTime (fst r) = nowClock o)
  /\ (height = -1 ->
      In (ELog (LogStalled (-1) (sinceClock o - startClock))) (snd r)
      /\ ~ In (ELog (LogProgressing height)) (snd r)
      /\ lastBlockHeight (fst r) = -1
      /\ restarts (snd r) =
           (if StallTimeout config <? sinceClock o - startClock then 1%nat else 0%nat)
      /\ (sinceClock o - startClock <= StallTimeout config -> fst r = s0))
  /\ (height < -1 ->
      In (ELog (LogDecreased (-1) height)) (snd r)
      /\ ~ In (ELog (LogProgressing height)) (snd r)
      /\ lastBlockHeight (fst r) = height
      /\ lastProgressTime (fst r) = nowClock o).
Proof.
  intros Hfetch s0 r. subst s0 r. simpl start. simpl fst at 1 2.
  split; [reflexivity|]. split; [reflexivity|].
  split; [|split].
  - intros Hgt. unfold tick. simpl. rewrite Hfetch.
    assert ((-1 <? height) = true) as -> by lia.
    simpl. auto.
  - intros ->. rewrite tick_restarts. unfold tick, overdue. simpl. rewrite Hfetch.
    simpl.
    destruct (StallTimeout config <? sinceClock o - startClock) eqn:Hover.
    + unfold attemptRestart, restartContainer.
      destruct (String.eqb (ContainerName config) "");
        [|destruct (cmdErr (docker o))]; simpl;
        (repeat split; auto; try lia;
         intros H; repeat (destruct H as [H|H]; try discriminate H); exact H).
    + simpl. repeat split; auto.
      intros H; repeat (destruct H as [H|H]; try discriminate H); exact H.
  - intros Hlt. unfold tick. simpl. rewrite Hfetch.
    assert ((-1 <? height) = false) as -> by lia.
    assert ((height =? -1) = false) as -> by lia.
    simpl. repeat split; auto.
    intros H; repeat (destruct H as [H|H]; try discriminate H); exact H.
Qed.

Lemma sentinel_is_compared_witness :
  let o := Sample.sample (-1) 30 in
  let s0 := fst (start 0 (inl (ErrMetricNotFound "m")) 1) in
  In (ELog (LogStalled (-1) (sinceClock o - 0))) (snd (tick Sample.defaults s0 o))
  /\ fst (tick Sample.defaults s0 o) = s0.
Proof.
  pose proof (sentinel_is_compared Sample.defaults 0 1 (ErrMetricNotFound "m")
                (Sample.sample (-1) 30) (-1) eq_refl) as (_ & _ & _ & Hstall & _).
  destruct (Hstall eq_refl) as (Hlog & _ & _ & _ & Hsame).
  split; [exact Hlog|]. apply Hsame. vm_compute. discriminate.
Defined.

(** ** The stall timeout *)

(** A tick that meets the recorded height and is not overdue changes
    nothing. *)
Lemma tick_stalled_early (config : Config) (s : Monitor) (o : Obs) :
  isRestarting s = false ->
  fetched o = inr (lastBlockHeight s) ->
  overdue config s o = false ->
  fst (tick config s o) = s.
Proof.
  unfold tick, overdue. intros -> -> Hover.
  rewrite Z.ltb_irrefl, Z.eqb_refl, Hover. reflexivity.
Qed.

(** C3, as the specification states it, fails: with a stall timeout of 60
    seconds and the height 100 sampled at 0, 30 and 60 seconds, the third
    sample finds a stall of exactly 60 seconds and no restart is
    attempted. *)
Lemma boundary_third_sample_no_restart :
  let r2 := tick Sample.minute Sample.at100 (Sample.sample 100 30) in
  let r3 := tick Sample.minute (fst r2) (Sample.sample 100 60) in
  snd r3 = [EQuery; ELog (LogCurrent 100 100);
            ELog (LogStalled 100 (StallTimeout Sample.minute))]
  /\ restarts (snd r3) = 0%nat.
Proof.
  split; reflexivity.
Qed.

(** C3, amended. With a stall timeout of 60 seconds, a first query that
    returned 100 at instant 0 and a second sample of 100 at 30 seconds:
    the second sample attempts no restart and changes nothing; a third
    sample of 100 attempts a restart exactly when the stall it finds is
    strictly longer than 60 seconds, and otherwise changes nothing, so
    that at exactly 60 seconds there is no restart and at 90 seconds
    there is one. *)
Theorem boundary_restart_is_strict (config : Config) (d2 : CmdResult) (now2 : Z) (o3 : Obs) :
  StallTimeout config = 60 * Sample.second ->
  fetched o3 = inr 100 ->
  let o2 := {| fetched := inr 100; sinceClock := 30 * Sample.second;
               docker := d2; nowClock := now2 |} in
  let r2 := tick config Sample.at100 o2 in
  let r3 := tick config (fst r2) o3 in
  restarts (snd r2) = 0%nat
  /\ fst r2 = Sample.at100
  /\ restarts (snd r3) =
       (if 60 * Sample.second <? sinceClock o3 then 1%nat else 0%nat)
  /\ (sinceClock o3 <= 60 * Sample.second -> fst r3 = Sample.at100).
Proof.
  intros Htimeout Hfetch o2 r2 r3.
  assert (fst r2 = Sample.at100) as Hs2.
  { apply tick_stalled_early; try reflexivity.
    unfold overdue. rewrite Htimeout. reflexivity. }
  subst r3. rewrite Hs2. subst r2.
  rewrite !tick_restarts. unfold overdue. rewrite Htimeout, Hfetch.
  simpl isRestarting. simpl fetched. simpl lastBlockHeight. simpl lastProgressTime.
  split; [reflexivity|]. split; [reflexivity|]. split.
  - rewrite Z.eqb_refl, Z.sub_0_r. reflexivity.
  - intros Hearly. apply tick_stalled_early; try assumption; try reflexivity.
    unfold overdue. rewrite Htimeout. simpl lastProgressTime. lia.
Qed.

Lemma boundary_restart_is_strict_witness :
  restarts (snd (tick Sample.minute Sample.at100 (Sample.sample 100 30))) = 0%nat
  /\ restarts (snd (tick Sample.minute
                      (fst (tick Sample.minute Sample.at100 (Sample.sample 100 30)))
                      (Sample.sample 100 90))) = 1%nat.
Proof.
  pose proof (boundary_restart_is_strict Sample.minute Sample.dockerOK
                (30 * Sample.second) (Sample.sample 100 90) eq_refl eq_refl)
    as (H2 & _ & H3 & _).
  split; [exact H2 | exact H3].
Defined.

(** ** One restart per stall *)

(** C1, as the specification states it, fails in its last part.  Under
    the default configuration (stall timeout 300 s, cooldown 900 s) the
    height stays at 100: the tick at 330 s restarts the container, the
    ticks up to 1230 s are skipped, the goroutine clears the flag at
    1230 s, and the first tick after the cooldown, at 1260 s, meets the
    same height and restarts again, 30 seconds after the cooldown ended:
    the stall it finds, 930 s, is counted from the restart. *)
Lemma restart_again_right_after_cooldown :
  let o := Sample.sample 100 1260 in
  let r := run Sample.defaults Sample.at100 Sample.stalledUntilWake in
  timed Sample.defaults Sample.at100 0 (Sample.stalledUntilWake ++ [Tick o]) = true
  /\ restarts (snd r) = 1%nat
  /\ lastProgressTime (fst r) = 330 * Sample.second
  /\ restarts (snd (tick Sample.defaults (fst r) o)) = 1%nat
  /\ In (ELog (LogStalled 100 (930 * Sample.second))) (snd (tick Sample.defaults (fst r) o))
  /\ sinceClock o - 1230 * Sample.second < StallTimeout Sample.defaults.
Proof.
  cbv zeta. repeat split; try (vm_compute; reflexivity).
  vm_compute. tauto.
Qed.

(** C1, amended. While the fetched height stays at the recorded one and
    the restart command succeeds, the ticks attempt exactly one restart,
    at the first tick that finds a stall longer than the stall timeout
    (none if there is no such tick); that restart sets the flag, keeps
    the height, sets the progress time to the clock read after it and
    starts the goroutine that sleeps [RestartSleep]; the ticks after it
    are skipped.  Once the goroutine has cleared the flag, a tick that
    meets the same height attempts a restart exactly when more than the
    stall timeout has passed since the clock of the previous restart,
    wherever in that time the cooldown ended. *)
Theorem stall_restarts_once (config : Config) (s : Monitor) (obs : list Obs) :
  isRestarting s = false ->
  Forall (fun o => fetched o = inr (lastBlockHeight s)
                   /\ fst (restartContainer config (docker o)) = None) obs ->
  let r := run config s (map Tick obs) in
  match find (overdue config s) obs with
  | None => restarts (snd r) = 0%nat /\ fst r = s
  | Some o =>
      restarts (snd r) = 1%nat
      /\ isRestarting (fst r) = true
      /\ lastBlockHeight (fst r) = lastBlockHeight s
      /\ lastProgressTime (fst r) = nowClock o
      /\ sleeper (fst r) = Some (nowClock o + RestartSleep config)
      /\ forall o',
           fetched o' = inr (lastBlockHeight s) ->
           restarts (snd (tick config (fst (wake (fst r))) o')) =
           if StallTimeout config <? sinceClock o' - nowClock o then 1%nat else 0%nat
  end.
Proof.
  intros Hcool Hall. cbv zeta.
  induction Hall as [|o obs [Hfetch Hok] Hall IH]; [now split|].
  simpl map. rewrite run_cons. simpl step. simpl find. simpl fst. simpl snd.
  rewrite restarts_app.
  destruct (overdue config s o) eqn:Hover.
  - assert (restarts (snd (tick config s o)) = 1%nat) as Hone.
    { rewrite tick_restarts, Hcool, Hfetch, Z.eqb_refl, Hover. reflexivity. }
    rewrite Hone, (tick_state_after_attempt config s o Hone), attemptRestart_state, Hok.
    match goal with |- context [run config ?s1 _] =>
      destruct (run_cooldown config s1 obs eq_refl) as (-> & -> & _) end.
    repeat split.
    intros o' Hfetch'. rewrite tick_restarts. simpl. rewrite Hfetch', Z.eqb_refl.
    reflexivity.
  - assert (restarts (snd (tick config s o)) = 0%nat) as ->.
    { rewrite tick_restarts, Hcool, Hfetch, Z.eqb_refl, Hover. reflexivity. }
    rewrite (tick_stalled_early config s o Hcool Hfetch Hover). exact IH.
Qed.

Lemma stall_restarts_once_witness :
  let r := run Sample.defaults Sample.at100 (map Tick (Sample.samples 100 300 30 3)) in
  restarts (snd r) = 1%nat
  /\ lastProgressTime (fst r) = 330 * Sample.second
  /\ restarts (snd (tick Sample.defaults (fst (wake (fst r))) (Sample.sample 100 1260))) = 1%nat.
Proof.
  assert (Forall (fun o => fetched o = inr (lastBlockHeight Sample.at100)
                           /\ fst (restartContainer Sample.defaults (docker o)) = None)
                 (Sample.samples 100 300 30 3)) as Hall.
  { repeat (constructor; [split; reflexivity|]). constructor. }
  pose proof (stall_restarts_once Sample.defaults Sample.at100
                (Sample.samples 100 300 30 3) eq_refl Hall) as H.
  assert (find (overdue Sample.defaults Sample.at100) (Sample.samples 100 300 30 3)
          = Some (Sample.sample 100 330)) as E by reflexivity.
  cbv zeta in H. rewrite E in H.
  destruct H as (H1 & _ & _ & H2 & _ & H3).
  split; [exact H1|]. split; [exact H2|].
  exact (H3 (Sample.sample 100 1260) eq_refl).
Defined.

(** ** The metric fetch *)

(** C4, as the specification states it, fails: the first line with the
    metric's prefix does not decide.  In the first body that line has no
    second field, in the second body its second field is not a number;
    the code goes on to the next line with the prefix and returns 42,
    where the fetch worded by the specification fails. *)
Lemma later_matching_line_is_used :
  queryBlockHeightText Sample.ParseFloat Sample.int64_of_float
    (Sample.textOnly Sample.bodyNoValue) Sample.defaults = inr 42
  /\ spec_firstLineDecides Sample.ParseFloat Sample.int64_of_float Sample.defaults
       (strings.SplitLines Sample.bodyNoValue)
     = inl (ErrMetricNotFound (MetricName Sample.defaults))
  /\ queryBlockHeightText Sample.ParseFloat Sample.int64_of_float
       (Sample.textOnly Sample.bodyBadValue) Sample.defaults = inr 42
  /\ spec_firstLineDecides Sample.ParseFloat Sample.int64_of_float Sample.defaults
       (strings.SplitLines Sample.bodyBadValue)
     = inl (ErrMetricNotFound (MetricName Sample.defaults)).
Proof.
  repeat split; vm_compute; reflexivity.
Qed.

Section FetchProperties.

Context {float64 : Type}.
Variable ParseFloat : string -> option float64.
Variable int64_of_float : float64 -> Z.
Variable Decode : string -> option (PrometheusResponse float64).
Variable Get : string -> HttpResult.

(** The loop passes over a line that carries no value. *)
Lemma scanLines_skip (config : Config) (line : string) (lines : list string) :
  (forall v, ~ carries ParseFloat config line v) ->
  scanLines ParseFloat int64_of_float config (line :: lines)
  = scanLines ParseFloat int64_of_float config lines.
Proof.
  intros Hno. simpl.
  destruct (strings.HasPrefix line (MetricName config)) eqn:Hpre; [|reflexivity].
  destruct (strings.Fields line) as [|name [|field more]] eqn:Hfields;
    try reflexivity.
  destruct (ParseFloat field) as [v|] eqn:Hparse; [|reflexivity].
  exfalso. apply (Hno v). split; [exact Hpre|].
  now exists name, field, more.
Qed.

(** The loop stops at a line that carries a value. *)
Lemma scanLines_hit (config : Config) (line : string) (lines : list string) (v : float64) :
  carries ParseFloat config line v ->
  scanLines ParseFloat int64_of_float config (line :: lines) = inr (int64_of_float v).
Proof.
  intros [Hpre (name & field & more & Hfields & Hparse)].
  simpl. now rewrite Hpre, Hfields, Hparse.
Qed.

(** What the loop returns, and from which line. *)
Lemma scanLines_result (config : Config) (lines : list string) :
  match scanLines ParseFloat int64_of_float config lines with
  | inr height =>
      exists pre line post v,
        lines = pre ++ line :: post
        /\ (forall l w, In l pre -> ~ carries ParseFloat config l w)
        /\ carries ParseFloat config line v
        /\ height = int64_of_float v
  | inl err =>
      err = ErrMetricNotFound (MetricName config)
      /\ forall l w, In l lines -> ~ carries ParseFloat config l w
  end.
Proof.
  induction lines as [|line lines IH].
  { simpl. split; [reflexivity|]. intros l w Hin. destruct Hin. }
  assert ((exists v, carries ParseFloat config line v)
          \/ (forall v, ~ carries ParseFloat config line v)) as [[v Hv]|Hno].
  { unfold carries.
    destruct (strings.HasPrefix line (MetricName config));
      [|right; intros v [H _]; discriminate].
    destruct (strings.Fields line) as [|name [|field more]];
      try (right; intros v (_ & ? & ? & ? & H & _); discriminate).
    destruct (ParseFloat field) as [v|] eqn:Hparse.
    - left. exists v. split; [reflexivity|]. now exists name, field, more.
    - right. intros v (_ & ? & ? & ? & H & Hp). congruence. }
  - rewrite (scanLines_hit config line lines v Hv).
    exists [], line, lines, v.
    split; [reflexivity|]. split; [intros l w Hin; destruct Hin|].
    split; [exact Hv | reflexivity].
  - rewrite (scanLines_skip config line lines Hno).
    destruct (scanLines ParseFloat int64_of_float config lines) as [err|height].
    + destruct IH as [-> IH]. split; [reflexivity|].
      intros l w [<-|Hin]; [apply Hno | now apply IH].
    + destruct IH as (pre & hit & post & v & -> & Hpre & Hhit & ->).
      exists (line :: pre), hit, post, v.
      split; [reflexivity|]. split; [|split; [exact Hhit | reflexivity]].
      intros l w [<-|Hin]; [apply Hno | now apply Hpre].
Qed.

(** C4, amended. For every body of a 200 answer of the text endpoint:
    the body is cut into lines; the fetch returns the truncated value
    of the first line that starts with the metric name, has a second
    white-space separated field and whose second field parses as a
    float; lines with the prefix before it whose second field is
    missing or does not parse are passed over; the fetch fails, with
    "metric not found", exactly when no line is of that kind. *)
Theorem text_fetch_first_usable_line (config : Config) (content : string) :
  Get (metricsURL config) = Response StatusOK (BodyBytes content) ->
  let fetch := queryBlockHeightText ParseFloat int64_of_float Get config in
  (forall pre line post v,
      strings.SplitLines content = pre ++ line :: post ->
      (forall l w, In l pre -> ~ carries ParseFloat config l w) ->
      carries ParseFloat config line v ->
      fetch = inr (int64_of_float v))
  /\ ((forall l w, In l (strings.SplitLines content) -> ~ carries ParseFloat config l w) ->
      fetch = inl (ErrMetricNotFound (MetricName config)))
  /\ (forall height, fetch = inr height ->
      exists pre line post v,
        strings.SplitLines content = pre ++ line :: post
        /\ (forall l w, In l pre -> ~ carries ParseFloat config l w)
        /\ carries ParseFloat config line v
        /\ height = int64_of_float v)
  /\ (forall err, fetch = inl err ->
      err = ErrMetricNotFound (MetricName config)
      /\ forall l w, In l (strings.SplitLines content) -> ~ carries ParseFloat config l w).
Proof.
  intros Hget fetch.
  assert (fetch = scanLines ParseFloat int64_of_float config (strings.SplitLines content))
    as Hfetch.
  { unfold fetch, queryBlockHeightText. rewrite Hget. reflexivity. }
  rewrite Hfetch. clear Hfetch fetch.
  pose proof (scanLines_result config (strings.SplitLines content)) as Hres.
  split; [|split; [|split]].
  - intros pre line post v -> Hpre Hline.
    clear Hres. induction pre as [|l pre IH]; simpl app.
    + now apply scanLines_hit.
    + rewrite scanLines_skip; [apply IH|].
      * intros l' w Hin. apply Hpre. now right.
      * intros w. apply Hpre. now left.
  - intros Hnone.
    destruct (scanLines ParseFloat int64_of_float config (strings.SplitLines content))
      as [err|height]; [now destruct Hres as [-> _]|].
    destruct Hres as (pre & line & post & v & Hsplit & _ & Hline & _).
    exfalso. apply (Hnone line v); [|exact Hline].
    rewrite Hsplit. apply in_or_app. right. now left.
  - intros height Heq. rewrite Heq in Hres. exact Hres.
  - intros err Heq. rewrite Heq in Hres. exact Hres.
Qed.

(** The failures of the structured query that do fall through.
    Whenever it fails in one of these ways (transport, a status other than 200, a body
    that does not decode, a status field other than "success", an empty
    result set, a value that is not a string or does not parse as a
    float), [queryBlockHeight] returns what the text fetch returns; so
    when the text fetch fails too, the error returned is the error of
    the text fetch. *)
Theorem structured_failure_falls_through (config : Config) :
  StructuredFailure ParseFloat Decode Get config ->
  queryBlockHeight ParseFloat int64_of_float Decode Get config
  = Returned (queryBlockHeightText ParseFloat int64_of_float Get config)
  /\ forall err,
       queryBlockHeightText ParseFloat int64_of_float Get config = inl err ->
       queryBlockHeight ParseFloat int64_of_float Decode Get config = Returned (inl err).
Proof.
  intros Hfail.
  assert (queryBlockHeight ParseFloat int64_of_float Decode Get config
          = Returned (queryBlockHeightText ParseFloat int64_of_float Get config)) as Hq.
  { unfold queryBlockHeight.
    destruct Hfail as [err Hget | code body Hget Hcode | body Hget Hdec
                      | body promResp Hget Hdec Hstatus
                      | body promResp Hget Hdec Hempty
                      | body promResp first others v Hget Hdec Hstatus Hres Hnth Hnot
                      | body promResp first others valueStr Hget Hdec Hstatus Hres Hnth Hparse];
      rewrite Hget; try reflexivity;
      try (change (negb (StatusOK =? StatusOK)) with false; cbv iota; rewrite Hdec).
    - assert ((code =? StatusOK) = false) as -> by lia. reflexivity.
    - reflexivity.
    - apply String.eqb_neq in Hstatus. now rewrite Hstatus.
    - rewrite Hempty. cbn [length Nat.eqb]. now rewrite orb_true_r.
    - rewrite Hstatus, Hres, Hnth, String.eqb_refl. cbn [length Nat.eqb negb orb].
      destruct v; try reflexivity. now destruct (Hnot s).
    - rewrite Hstatus, Hres, Hnth, Hparse, String.eqb_refl. reflexivity. }
  split; [exact Hq|]. intros err Herr. now rewrite Hq, Herr.
Qed.

End FetchProperties.

(** C6. The code at a structured answer that fails for want of a value:
    the structured endpoint answers 200, status "success", with one
    result whose value array holds the timestamp alone, and the text
    endpoint has the metric at 7.  The index expression at line 156
    panics; the fetch does not fall through to the text endpoint, which
    would have returned 7. *)
Theorem missing_value_panics_instead_of_falling_through :
  queryBlockHeight Sample.ParseFloat Sample.int64_of_float Sample.shortValue
    Scenario.shortAnswer Sample.defaults
  = Panicked "index out of range [1]"
  /\ queryBlockHeightText Sample.ParseFloat Sample.int64_of_float
       Scenario.shortAnswer Sample.defaults
     = inr 7.
Proof.
  split; vm_compute; reflexivity.
Qed.

(** Outside the failures listed above: a result whose value array has
    fewer than two elements is not a fall-through, the index expression
    panics. *)
Lemma short_value_panics :
  queryBlockHeight Sample.ParseFloat Sample.int64_of_float Sample.shortValue
    (Sample.always "{}") Sample.defaults
  = Panicked "index out of range [1]".
Proof.
  reflexivity.
Qed.

Lemma text_fetch_first_usable_line_witness :
  queryBlockHeightText Sample.ParseFloat Sample.int64_of_float
    (Sample.textOnly Sample.bodyBadValue) Sample.defaults = inr 42.
Proof.
  pose proof (text_fetch_first_usable_line Sample.ParseFloat Sample.int64_of_float
                (Sample.textOnly Sample.bodyBadValue) Sample.defaults
                Sample.bodyBadValue eq_refl) as [Hfirst _].
  apply (Hfirst ["near_indexer_streaming_current_block_height_info up"]
                "near_indexer_streaming_current_block_height 42.0" [EmptyString]
                (420, 1%nat)).
  - reflexivity.
  - intros l w [<-|[]] [_ (name & field & more & Hfields & Hparse)].
    vm_compute in Hfields. injection Hfields as _ <- _.
    vm_compute in Hparse. discriminate.
  - split; [reflexivity|]. eexists _, _, _. split; reflexivity.
Defined.

Lemma structured_failure_falls_through_witness :
  queryBlockHeight Sample.ParseFloat Sample.int64_of_float Sample.noJSON
    (Sample.textOnly Sample.bodyBadValue) Sample.defaults = Returned (inr 42)
  /\ queryBlockHeight Sample.ParseFloat Sample.int64_of_float Sample.noJSON
       Sample.unreachable Sample.defaults
     = Returned (inl (ErrFetchMetrics "connection refused")).
Proof.
  split.
  - refine (proj1 (structured_failure_falls_through Sample.ParseFloat Sample.int64_of_float
                     Sample.noJSON (Sample.textOnly Sample.bodyBadValue) Sample.defaults _)).
    apply StatusNotOK with (code := 500) (body := BodyBytes ""); [reflexivity | discriminate].
  - refine (proj2 (structured_failure_falls_through Sample.ParseFloat Sample.int64_of_float
                     Sample.noJSON Sample.unreachable Sample.defaults _) _ eq_refl).
    now apply TransportFails with (err := "connection refused").
Defined.

(** ** Loading the configuration *)

(** The error [LoadConfig] returns is the error of [viper.Unmarshal],
    whatever [viper.ReadInConfig] returned; [main] stops on it, and on
    nothing else that [LoadConfig] met. *)
Lemma LoadConfig_error_is_Unmarshal_error (ParseDuration : string -> option Z) (v : Viper) :
  snd (fst (LoadConfig ParseDuration v)) = snd (Unmarshal v)
  /\ ((exists err, startup ParseDuration v = Fatal err) <-> snd (Unmarshal v) <> None).
Proof.
  unfold startup, LoadConfig.
  destruct (Unmarshal v) as [config [err|]]; simpl.
  - split; [reflexivity|]. split; [discriminate | intros _; now exists err].
  - split; [reflexivity|]. split; [|congruence].
    intros [err H].
    now destruct (durationOr ParseDuration v "queryInterval" (QueryInterval config) <=? 0).
Qed.

(** C9. The code at a configuration file that is there and is not YAML:
    [viper.ReadInConfig] fails with a parse error, [LoadConfig] logs
    "Config file not found, using defaults", returns the defaults and no
    error, and [main] goes on to its loop, just as when the file is
    missing.  The process stops only when decoding into the struct
    fails. *)
Theorem malformed_file_is_not_fatal :
  LoadConfig Sample.ParseDuration Sample.malformedFile
  = (Sample.defaults, None,
     [ELog (LogConfigNotFound "While parsing config: yaml: did not find expected key")])
  /\ startup Sample.ParseDuration Sample.malformedFile = Running Sample.defaults
  /\ startup Sample.ParseDuration Sample.missingFile = Running Sample.defaults
  /\ startup Sample.ParseDuration Sample.badDuration
     = Fatal "error decoding 'stallTimeout': time: invalid duration".
Proof.
  repeat split; vm_compute; reflexivity.
Qed.


(** * Further properties of the code *)

(** ** What a run does to the world *)

Lemma count_app (p : Effect -> bool) (a b : list Effect) :
  List.length (filter p (a ++ b))
  = (List.length (filter p a) + List.length (filter p b))%nat.
Proof.
  now rewrite filter_app, length_app.
Qed.

(** One tick: at most one fetch; a restart only after the fetch; docker
    only inside a restart; a goroutine only after docker ran. *)
Lemma tick_counts (config : Config) (s : Monitor) (o : Obs) :
  (goroutines (snd (tick config s o)) <= dockers (snd (tick config s o)))%nat
  /\ (dockers (snd (tick config s o)) <= restarts (snd (tick config s o)))%nat
  /\ (restarts (snd (tick config s o)) <= queries (snd (tick config s o)))%nat
  /\ (queries (snd (tick config s o)) <= 1)%nat.
Proof.
  unfold tick, attemptRestart, restartContainer.
  destruct (isRestarting s); [cbn; lia|].
  destruct (fetched o) as [err|height].
  - destruct (StallTimeout config <? sinceClock o - lastProgressTime s); [|cbn; lia].
    destruct (String.eqb (ContainerName config) ""); [cbn; lia|].
    destruct (cmdErr (docker o)); cbn; lia.
  - destruct (lastBlockHeight s <? height); [cbn; lia|].
    destruct (height =? lastBlockHeight s); [|cbn; lia].
    destruct (StallTimeout config <? sinceClock o - lastProgressTime s); [|cbn; lia].
    destruct (String.eqb (ContainerName config) ""); [cbn; lia|].
    destruct (cmdErr (docker o)); cbn; lia.
Qed.

(** Counts along every sequence of ticks and wake-ups: no more
    goroutines than docker commands, no more docker commands than calls
    of [restartContainer], no more such calls than fetches, and no more
    fetches than ticks. *)
Lemma effects_are_nested (config : Config) (s : Monitor) (evs : list Event) :
  (goroutines (snd (run config s evs)) <= dockers (snd (run config s evs)))%nat
  /\ (dockers (snd (run config s evs)) <= restarts (snd (run config s evs)))%nat
  /\ (restarts (snd (run config s evs)) <= queries (snd (run config s evs)))%nat
  /\ (queries (snd (run config s evs)) <= ticks evs)%nat.
Proof.
  revert s. induction evs as [|ev evs IH]; intros s; [cbn; lia|].
  rewrite run_cons. cbn [snd].
  unfold goroutines, dockers, restarts, queries in *. rewrite !count_app.
  specialize (IH (fst (step config s ev))).
  destruct ev as [o|t].
  - pose proof (tick_counts config s o) as Ht.
    unfold goroutines, dockers, restarts, queries in Ht.
    cbn [step ticks] in *. lia.
  - remember (fst (step config s (Wake t))) as s1 eqn:Hs1. clear Hs1. cbn. lia.
Qed.

Lemma inOrder_app (last : Action) (a b : list Effect) :
  inOrder last (a ++ b) = inOrder last a && inOrder (lastAction last a) b.
Proof.
  revert last. induction a as [|e a IH]; intros last; [reflexivity|].
  cbn [app inOrder lastAction]. now rewrite IH, andb_assoc.
Qed.

(** The effects of one tick are in order, whatever was done before. *)
Lemma tick_inOrder (config : Config) (s : Monitor) (o : Obs) (last : Action) :
  inOrder last (snd (tick config s o)) = true.
Proof.
  unfold tick, attemptRestart, restartContainer.
  destruct (isRestarting s); [reflexivity|].
  destruct (fetched o) as [err|height].
  - destruct (StallTimeout config <? sinceClock o - lastProgressTime s); [|reflexivity].
    destruct (String.eqb (ContainerName config) ""); [reflexivity|].
    destruct (cmdErr (docker o)); reflexivity.
  - destruct (lastBlockHeight s <? height); [reflexivity|].
    destruct (height =? lastBlockHeight s); [|reflexivity].
    destruct (StallTimeout config <? sinceClock o - lastProgressTime s); [|reflexivity].
    destruct (String.eqb (ContainerName config) ""); [reflexivity|].
    destruct (cmdErr (docker o)); reflexivity.
Qed.

Lemma run_inOrder (config : Config) (s : Monitor) (evs : list Event) (last : Action) :
  inOrder last (snd (run config s evs)) = true.
Proof.
  revert s last. induction evs as [|ev evs IH]; intros s last; [reflexivity|].
  rewrite run_cons. cbn [snd]. rewrite inOrder_app, IH, andb_true_r.
  destruct ev as [o|t]; [apply tick_inOrder | reflexivity].
Qed.

(** X1. Along every sequence of ticks and wake-ups, log lines apart:
    every call of [restartContainer] comes right after a fetch, so in a
    tick that fetched; every docker command comes right after a call of
    [restartContainer], so inside it; every goroutine is started right
    after a docker command; and there are no more fetches than ticks. *)
Theorem effects_are_ordered (config : Config) (s : Monitor) (evs : list Event) :
  (forall before e after,
      snd (run config s evs) = before ++ e :: after ->
      match e with
      | ERestart => lastAction NoAction before = Queried
      | EDocker _ => lastAction NoAction before = Restarted
      | EGo _ => lastAction NoAction before = DockerCalled
      | EQuery => True
      | ELog _ => True
      end)
  /\ (queries (snd (run config s evs)) <= ticks evs)%nat.
Proof.
  split; [|apply effects_are_nested].
  intros before e after Heq.
  pose proof (run_inOrder config s evs NoAction) as Hord.
  rewrite Heq, inOrder_app in Hord. apply andb_true_iff in Hord as [_ Hord].
  cbn [inOrder] in Hord. apply andb_true_iff in Hord as [Hord _].
  destruct e; cbn [follows] in Hord; try exact I;
    now destruct (lastAction NoAction before).
Qed.

Lemma effects_are_ordered_witness :
  lastAction NoAction
    [EQuery; ELog (LogCurrent 100 100); ELog (LogStalled 100 (90 * Sample.second));
     ELog (LogStallRestart (90 * Sample.second) (60 * Sample.second)); ERestart;
     ELog (LogRestarting "near-lake-indexer")]
  = Restarted.
Proof.
  exact (proj1 (effects_are_ordered Sample.minute Sample.at100 [Tick (Sample.sample 100 90)])
           [EQuery; ELog (LogCurrent 100 100); ELog (LogStalled 100 (90 * Sample.second));
            ELog (LogStallRestart (90 * Sample.second) (60 * Sample.second)); ERestart;
            ELog (LogRestarting "near-lake-indexer")]
           (EDocker "near-lake-indexer")
           [ELog (LogDockerOutput "near-lake-indexer"); EGo (900 * Sample.second)]
           eq_refl).
Defined.

(** The effects of a run are those of its steps. *)
Lemma in_run_effects (config : Config) (s : Monitor) (evs : list Event) (e : Effect) :
  In e (snd (run config s evs)) ->
  exists pre ev post,
    evs = pre ++ ev :: post
    /\ In e (snd (step config (fst (run config s pre)) ev)).
Proof.
  revert s. induction evs as [|ev evs IH]; intros s Hin; [destruct Hin|].
  rewrite run_cons in Hin. cbn [snd] in Hin. apply in_app_or in Hin as [Hin|Hin].
  - exists [], ev, evs. now split.
  - apply IH in Hin as (pre & ev' & post & -> & Hin).
    exists (ev :: pre), ev', post. split; [reflexivity|].
    now rewrite run_cons.
Qed.

(** X2. The only docker command a run ever issues is the restart of the
    configured container, and never with an empty name. *)
Theorem docker_targets_configured_container
        (config : Config) (s : Monitor) (evs : list Event) (name : string) :
  In (EDocker name) (snd (run config s evs)) ->
  name = ContainerName config /\ name <> "".
Proof.
  intros Hin. apply in_run_effects in Hin as (pre & ev & post & _ & Hin).
  destruct ev as [o|t]; [|cbn in Hin; intuition discriminate].
  revert Hin. generalize (fst (run config s pre)). intros s'.
  unfold step, tick, attemptRestart, restartContainer.
  destruct (isRestarting s'); [cbn; intuition discriminate|].
  destruct (String.eqb (ContainerName config) "") eqn:Hname.
  - destruct (fetched o) as [err|height];
      [|destruct (lastBlockHeight s' <? height); [cbn; intuition discriminate|];
        destruct (height =? lastBlockHeight s'); [|cbn; intuition discriminate]];
      destruct (StallTimeout config <? sinceClock o - lastProgressTime s');
      cbn; intuition discriminate.
  - apply String.eqb_neq in Hname.
    assert (forall x, EDocker (ContainerName config) = EDocker name \/ x ->
                      (x -> False) -> name = ContainerName config /\ name <> "") as Hfound.
    { intros x [Heq|Hx] Hno; [|now destruct Hno]. injection Heq as <-. now split. }
    destruct (fetched o) as [err|height];
      [|destruct (lastBlockHeight s' <? height); [cbn; intuition discriminate|];
        destruct (height =? lastBlockHeight s'); [|cbn; intuition discriminate]];
      (destruct (StallTimeout config <? sinceClock o - lastProgressTime s');
       [|cbn; intuition discriminate]);
      destruct (cmdErr (docker o)); cbn;
      intros H; repeat (destruct H as [H|H]; try discriminate H);
      try (injection H as <-; now split); try now destruct H.
Qed.

Lemma docker_targets_configured_container_witness :
  In (EDocker "near-lake-indexer")
     (snd (run Sample.minute Sample.at100 [Tick (Sample.sample 100 90)]))
  /\ "near-lake-indexer" = ContainerName Sample.minute.
Proof.
  assert (In (EDocker "near-lake-indexer")
             (snd (run Sample.minute Sample.at100 [Tick (Sample.sample 100 90)]))) as Hin.
  { vm_compute. tauto. }
  split; [exact Hin|].
  exact (proj1 (docker_targets_configured_container Sample.minute Sample.at100
                  [Tick (Sample.sample 100 90)] "near-lake-indexer" Hin)).
Defined.

(** ** The restart command that cannot succeed *)

(** A tick of a monitor that is not cooling down, with no container
    named: it fetches, runs no docker command, starts no goroutine and
    stays out of the cooldown. *)
Lemma tick_unnamed (config : Config) (s : Monitor) (o : Obs) :
  ContainerName config = "" ->
  isRestarting s = false ->
  isRestarting (fst (tick config s o)) = false
  /\ dockers (snd (tick config s o)) = 0%nat
  /\ goroutines (snd (tick config s o)) = 0%nat
  /\ queries (snd (tick config s o)) = 1%nat.
Proof.
  intros Hname Hcool. unfold tick, attemptRestart, restartContainer.
  rewrite Hcool, Hname. cbn [String.eqb].
  destruct (fetched o) as [err|height].
  - destruct (StallTimeout config <? sinceClock o - lastProgressTime s);
      cbn; auto.
  - destruct (lastBlockHeight s <? height); [cbn; auto|].
    destruct (height =? lastBlockHeight s); [|cbn; auto].
    destruct (StallTimeout config <? sinceClock o - lastProgressTime s);
      cbn; auto.
Qed.

(** X3. With no container named, a monitor that is not cooling down never
    runs a docker command, never starts a goroutine, never enters the
    cooldown, and therefore fetches at every tick, whatever the fetches
    return and however long the run. *)
Theorem unnamed_container_never_cools_down (config : Config) (s : Monitor) (evs : list Event) :
  ContainerName config = "" ->
  isRestarting s = false ->
  isRestarting (fst (run config s evs)) = false
  /\ dockers (snd (run config s evs)) = 0%nat
  /\ goroutines (snd (run config s evs)) = 0%nat
  /\ queries (snd (run config s evs)) = ticks evs.
Proof.
  intros Hname. revert s. induction evs as [|ev evs IH]; intros s Hcool;
    [now repeat split|].
  rewrite run_cons. cbn [fst snd].
  unfold dockers, goroutines, queries in *. rewrite !count_app.
  destruct ev as [o|t].
  - destruct (tick_unnamed config s o Hname Hcool) as (Hc & Hd & Hg & Hq).
    unfold dockers, goroutines, queries in Hd, Hg, Hq.
    cbn [step ticks]. rewrite Hd, Hg, Hq.
    destruct (IH _ Hc) as (-> & -> & -> & ->). now repeat split.
  - destruct (IH (fst (step config s (Wake t))) eq_refl) as (-> & -> & -> & ->).
    now repeat split.
Qed.

Lemma unnamed_container_never_cools_down_witness :
  let r := run Sample.unnamed Sample.at100
               [Tick (Sample.sample 100 330); Tick (Sample.failing 360);
                Tick (Sample.sample 100 390)] in
  isRestarting (fst r) = false
  /\ dockers (snd r) = 0%nat
  /\ goroutines (snd r) = 0%nat
  /\ queries (snd r) = 3%nat.
Proof.
  exact (unnamed_container_never_cools_down Sample.unnamed Sample.at100
           [Tick (Sample.sample 100 330); Tick (Sample.failing 360);
            Tick (Sample.sample 100 390)] eq_refl eq_refl).
Defined.

(** A tick that finds no progress: it restarts when it is overdue, and
    does nothing to the monitor otherwise. *)
Lemma tick_noProgress (config : Config) (s : Monitor) (o : Obs) :
  isRestarting s = false ->
  noProgress s o ->
  fst (tick config s o)
  = (if overdue config s o then fst (attemptRestart config s o) else s)
  /\ restarts (snd (tick config s o)) = (if overdue config s o then 1%nat else 0%nat).
Proof.
  intros Hcool Hno. split.
  - unfold tick, overdue. rewrite Hcool.
    destruct Hno as [-> | [err ->]].
    + rewrite Z.ltb_irrefl, Z.eqb_refl.
      destruct (StallTimeout config <? sinceClock o - lastProgressTime s);
        [|reflexivity].
      now destruct (attemptRestart config s o).
    + destruct (StallTimeout config <? sinceClock o - lastProgressTime s);
        [|reflexivity].
      now destruct (attemptRestart config s o).
  - rewrite tick_restarts, Hcool.
    destruct Hno as [-> | [err ->]]; [now rewrite Z.eqb_refl | reflexivity].
Qed.

(** X4. While the restart command fails, ticks that find no progress (a
    failed fetch or the recorded height) leave the monitor exactly as it
    was, and every one of them that is overdue attempts the restart
    again: the number of attempts is the number of overdue ticks. *)
Theorem failing_restart_is_retried_every_tick (config : Config) (s : Monitor) (obs : list Obs) :
  isRestarting s = false ->
  Forall (fun o => noProgress s o
                   /\ fst (restartContainer config (docker o)) <> None) obs ->
  fst (run config s (map Tick obs)) = s
  /\ restarts (snd (run config s (map Tick obs)))
     = List.length (filter (overdue config s) obs).
Proof.
  intros Hcool Hall.
  induction Hall as [|o obs [Hno Hfail] Hall [IHs IHr]]; [now split|].
  cbn [map]. rewrite run_cons. cbn [step fst snd filter].
  destruct (tick_noProgress config s o Hcool Hno) as [Hs Hr].
  assert (fst (tick config s o) = s) as Hsame.
  { rewrite Hs. destruct (overdue config s o); [|reflexivity].
    rewrite attemptRestart_state.
    now destruct (fst (restartContainer config (docker o))). }
  rewrite Hsame, restarts_app, Hr, IHr. split; [exact IHs|].
  now destruct (overdue config s o).
Qed.

Lemma failing_restart_is_retried_every_tick_witness :
  let obs := [Sample.sample 100 300; Sample.failing 330; Sample.sample 100 360] in
  fst (run Sample.unnamed Sample.at100 (map Tick obs)) = Sample.at100
  /\ restarts (snd (run Sample.unnamed Sample.at100 (map Tick obs))) = 2%nat.
Proof.
  apply (failing_restart_is_retried_every_tick Sample.unnamed Sample.at100
           [Sample.sample 100 300; Sample.failing 330; Sample.sample 100 360] eq_refl).
  constructor; [split; [left; reflexivity | discriminate]|].
  constructor; [split; [right; eexists; reflexivity | discriminate]|].
  constructor; [split; [left; reflexivity | discriminate]|].
  constructor.
Defined.

(** X5. Failed fetches count against the stall clock like the recorded
    height does: while every tick finds no progress (by either) and the
    restart command succeeds, there is exactly one restart attempt, at
    the first overdue tick, which starts the cooldown and sets the
    progress time to its clock, the height staying as it was; with no
    overdue tick nothing is attempted and nothing changes. *)
Theorem no_progress_restarts_once (config : Config) (s : Monitor) (obs : list Obs) :
  isRestarting s = false ->
  Forall (fun o => noProgress s o
                   /\ fst (restartContainer config (docker o)) = None) obs ->
  match find (overdue config s) obs with
  | None =>
      restarts (snd (run config s (map Tick obs))) = 0%nat
      /\ fst (run config s (map Tick obs)) = s
  | Some o =>
      restarts (snd (run config s (map Tick obs))) = 1%nat
      /\ fst (run config s (map Tick obs))
         = {| lastBlockHeight := lastBlockHeight s;
              lastProgressTime := nowClock o;
              isRestarting := true;
              sleeper := Some (nowClock o + RestartSleep config) |}
  end.
Proof.
  intros Hcool Hall.
  induction Hall as [|o obs [Hno Hok] Hall IH]; [now split|].
  cbn [map find]. rewrite run_cons. cbn [step fst snd].
  destruct (tick_noProgress config s o Hcool Hno) as [Hs Hr].
  rewrite restarts_app, Hr, Hs.
  destruct (overdue config s o).
  - rewrite attemptRestart_state, Hok.
    match goal with |- context [run config ?s1 _] =>
      destruct (run_cooldown config s1 obs eq_refl) as (-> & -> & _) end.
    now split.
  - exact IH.
Qed.

Lemma no_progress_restarts_once_witness :
  let obs := [Sample.failing 300; Sample.failing 330; Sample.sample 100 360] in
  restarts (snd (run Sample.defaults Sample.at100 (map Tick obs))) = 1%nat
  /\ lastProgressTime (fst (run Sample.defaults Sample.at100 (map Tick obs)))
     = 330 * Sample.second.
Proof.
  assert (Forall (fun o => noProgress Sample.at100 o
                           /\ fst (restartContainer Sample.defaults (docker o)) = None)
                 [Sample.failing 300; Sample.failing 330; Sample.sample 100 360]) as Hall.
  { constructor; [split; [right; eexists; reflexivity | reflexivity]|].
    constructor; [split; [right; eexists; reflexivity | reflexivity]|].
    constructor; [split; [left; reflexivity | reflexivity]|].
    constructor. }
  pose proof (no_progress_restarts_once Sample.defaults Sample.at100
                [Sample.failing 300; Sample.failing 330; Sample.sample 100 360]
                eq_refl Hall) as H.
  assert (find (overdue Sample.defaults Sample.at100)
               [Sample.failing 300; Sample.failing 330; Sample.sample 100 360]
          = Some (Sample.failing 330)) as E by reflexivity.
  rewrite E in H. destruct H as [H1 H2].
  split; [exact H1|]. now rewrite H2.
Defined.

(** ** The goroutine and the flag *)

Lemma step_paired (config : Config) (s : Monitor) (ev : Event) :
  paired s -> paired (fst (step config s ev)).
Proof.
  unfold paired. intros Hs. destruct ev as [o|t]; [|cbn; intuition congruence].
  unfold step, tick, attemptRestart.
  destruct (isRestarting s) eqn:Hcool; [cbn; rewrite Hcool; exact Hs|].
  destruct (restartContainer config (docker o)) as [[e|] effs];
    (destruct (fetched o) as [err|height];
     [|destruct (lastBlockHeight s <? height);
       [cbn; rewrite ?Hcool; exact Hs|];
       destruct (height =? lastBlockHeight s);
       [|cbn; rewrite ?Hcool; exact Hs]];
     destruct (StallTimeout config <? sinceClock o - lastProgressTime s);
     cbn; rewrite ?Hcool; try exact Hs; intuition congruence).
Qed.

Lemma run_paired (config : Config) (s : Monitor) (evs : list Event) :
  paired s -> paired (fst (run config s evs)).
Proof.
  revert s. induction evs as [|ev evs IH]; intros s Hs; [exact Hs|].
  rewrite run_cons. cbn [fst]. apply IH. now apply step_paired.
Qed.

(** The fetches of a tick: one, unless the monitor is cooling down. *)
Lemma tick_queries (config : Config) (s : Monitor) (o : Obs) :
  queries (snd (tick config s o)) = if isRestarting s then 0%nat else 1%nat.
Proof.
  pose proof (tick_counts config s o) as (_ & _ & _ & Hq).
  unfold tick in *. destruct (isRestarting s); [reflexivity|].
  destruct (fetched o) as [err|height].
  - destruct (StallTimeout config <? sinceClock o - lastProgressTime s);
      [|reflexivity].
    destruct (attemptRestart config s o) as [s' effs]. cbn in *. lia.
  - destruct (lastBlockHeight s <? height); [reflexivity|].
    destruct (height =? lastBlockHeight s); [|reflexivity].
    destruct (StallTimeout config <? sinceClock o - lastProgressTime s);
      [|reflexivity].
    destruct (attemptRestart config s o) as [s' effs]. cbn in *. lia.
Qed.

(** X6. In every run of the loop from the start of [main], under any
    interleaving of ticks and wake-ups, the flag [isRestarting] is set
    exactly while a goroutine is sleeping; so a goroutine is only ever
    started when none is sleeping: there are never two of them to clear
    the flag. *)
Theorem goroutines_never_overlap
        (config : Config) (startClock now0 : Z) (fetch : FetchError + Z) (evs : list Event) :
  paired (fst (run config (fst (start startClock fetch now0)) evs))
  /\ forall pre o post,
       evs = pre ++ Tick o :: post ->
       goroutines (snd (tick config
                          (fst (run config (fst (start startClock fetch now0)) pre)) o))
       = 1%nat ->
       sleeper (fst (run config (fst (start startClock fetch now0)) pre)) = None.
Proof.
  assert (paired (fst (start startClock fetch now0))) as Hstart.
  { unfold paired. destruct fetch; cbn; intuition congruence. }
  split; [now apply run_paired|].
  intros pre o post _ Hgo.
  pose proof (run_paired config _ pre Hstart) as Hp.
  pose proof (tick_counts config (fst (run config (fst (start startClock fetch now0)) pre)) o)
    as (Hgd & Hdr & Hrq & _).
  rewrite tick_queries in Hrq.
  destruct (isRestarting (fst (run config (fst (start startClock fetch now0)) pre))) eqn:Hcool;
    [lia|].
  unfold paired in Hp. rewrite Hcool in Hp.
  destruct (sleeper (fst (run config (fst (start startClock fetch now0)) pre)));
    [|reflexivity].
  now assert (false = true) by (apply Hp; discriminate).
Qed.

(** ** Clocks *)

Section TimedInvariant.

Variable config : Config.
Variable P : Monitor -> Z -> Prop.

Hypothesis P_tick :
  forall s clock o,
    P s clock -> clock <= sinceClock o -> sinceClock o <= nowClock o ->
    P (fst (tick config s o)) (nowClock o).

Hypothesis P_wake :
  forall s clock t ready,
    P s clock -> clock <= t -> sleeper s = Some ready -> ready <= t ->
    P (fst (wake s)) t.

(** A property of the monitor and the clock that the steps the clock
    allows keep, holds after any prefix of a sequence the clock allows,
    and the rest of the sequence is allowed from there. *)
Lemma timed_invariant_at (pre post : list Event) (s : Monitor) (clock : Z) :
  timed config s clock (pre ++ post) = true ->
  P s clock ->
  P (fst (run config s pre)) (clockAfter clock pre)
  /\ timed config (fst (run config s pre)) (clockAfter clock pre) post = true.
Proof.
  revert s clock. induction pre as [|ev pre IH]; intros s clock Ht HP; [now split|].
  rewrite <- app_comm_cons in Ht. rewrite run_cons. cbn [fst].
  destruct ev as [o|t]; cbn [timed] in Ht.
  - apply andb_true_iff in Ht as [Hclk Ht]. apply andb_true_iff in Hclk as [H1 H2].
    cbn [clockAfter step]. apply IH; [exact Ht|].
    apply (P_tick s clock); [exact HP | lia | lia].
  - apply andb_true_iff in Ht as [Hclk Ht]. apply andb_true_iff in Hclk as [H1 H2].
    cbn [clockAfter step]. apply IH; [exact Ht|].
    destruct (sleeper s) as [ready|] eqn:Hsl; [|discriminate].
    apply (P_wake s clock t ready); [exact HP | lia | exact Hsl | lia].
Qed.

End TimedInvariant.

(** A tick leaves the progress time, or sets it to its second clock. *)
Lemma tick_progress_time (config : Config) (s : Monitor) (o : Obs) :
  lastProgressTime (fst (tick config s o)) = lastProgressTime s
  \/ lastProgressTime (fst (tick config s o)) = nowClock o.
Proof.
  unfold tick, attemptRestart.
  destruct (isRestarting s); [now left|].
  destruct (restartContainer config (docker o)) as [[e|] effs];
    (destruct (fetched o) as [err|height];
     [|destruct (lastBlockHeight s <? height); [now right|];
       destruct (height =? lastBlockHeight s); [|now right]];
     destruct (StallTimeout config <? sinceClock o - lastProgressTime s);
     cbn; auto).
Qed.

(** X7. When the clocks read by the program do not go back, the progress
    time never goes back and is never ahead of the clock, so that the
    stall duration every tick computes is not negative. *)
Theorem progress_time_never_goes_back
        (config : Config) (s : Monitor) (clock : Z) (evs : list Event) :
  timed config s clock evs = true ->
  lastProgressTime s <= clock ->
  lastProgressTime s <= lastProgressTime (fst (run config s evs))
  /\ lastProgressTime (fst (run config s evs)) <= clockAfter clock evs
  /\ forall pre o post,
       evs = pre ++ Tick o :: post ->
       0 <= sinceClock o - lastProgressTime (fst (run config s pre)).
Proof.
  intros Ht Hle.
  set (P := fun (s' : Monitor) (c : Z) =>
              lastProgressTime s <= lastProgressTime s' /\ lastProgressTime s' <= c).
  assert (forall pre post, evs = pre ++ post ->
            P (fst (run config s pre)) (clockAfter clock pre)
            /\ timed config (fst (run config s pre)) (clockAfter clock pre) post = true)
    as Hinv.
  { intros pre post ->. apply timed_invariant_at; [| |exact Ht|unfold P; lia].
    - unfold P. intros s' c o [H1 H2] H3 H4.
      destruct (tick_progress_time config s' o) as [-> | ->]; lia.
    - unfold P. intros s' c t ready [H1 H2] H3 _ _. cbn. lia. }
  destruct (Hinv evs [] (eq_sym (app_nil_r evs))) as [[H1 H2] _].
  split; [exact H1|]. split; [exact H2|].
  intros pre o post Heq. destruct (Hinv pre (Tick o :: post) Heq) as [[_ H3] H4].
  cbn [timed] in H4. apply andb_true_iff in H4 as [H4 _].
  apply andb_true_iff in H4 as [H4 _]. lia.
Qed.

Lemma progress_time_never_goes_back_witness :
  lastProgressTime Sample.at100
  <= lastProgressTime (fst (run Sample.defaults Sample.at100 Sample.stalledUntilWake))
  /\ lastProgressTime (fst (run Sample.defaults Sample.at100 Sample.stalledUntilWake))
     <= clockAfter 0 Sample.stalledUntilWake.
Proof.
  pose proof (progress_time_never_goes_back Sample.defaults Sample.at100 0
                Sample.stalledUntilWake) as H.
  assert (timed Sample.defaults Sample.at100 0 Sample.stalledUntilWake = true) as Ht
    by (vm_compute; reflexivity).
  assert (lastProgressTime Sample.at100 <= 0) as Hle by (vm_compute; discriminate).
  destruct (H Ht Hle) as (H1 & H2 & _). split; [exact H1 | exact H2].
Defined.

(** A restart that succeeded at a tick leaves the monitor restarted at
    the second clock of that tick. *)
Lemma restartedAt_after_success (config : Config) (s : Monitor) (o : Obs) :
  goroutines (snd (tick config s o)) = 1%nat ->
  restartedAt config (nowClock o) (fst (tick config s o)) (nowClock o).
Proof.
  unfold restartedAt, tick, attemptRestart, restartContainer.
  destruct (isRestarting s); [discriminate|].
  assert (forall Q : Prop, 0%nat = 1%nat -> Q) as Hno by discriminate.
  destruct (fetched o) as [err|height];
    [|destruct (lastBlockHeight s <? height); [apply Hno|];
      destruct (height =? lastBlockHeight s); [|apply Hno]];
    (destruct (StallTimeout config <? sinceClock o - lastProgressTime s);
     [|apply Hno]);
    (destruct (String.eqb (ContainerName config) ""); [apply Hno|]);
    (destruct (cmdErr (docker o)); [apply Hno|]);
    intros _; cbn; (split; [lia|]); eexists; (split; [reflexivity|lia]).
Qed.

(** The steps the clock allows keep the monitor restarted at [t]. *)
Lemma restartedAt_tick (config : Config) (t : Z) (s : Monitor) (clock : Z) (o : Obs) :
  t <= clock /\ restartedAt config t s clock ->
  clock <= sinceClock o -> sinceClock o <= nowClock o ->
  t <= nowClock o /\ restartedAt config t (fst (tick config s o)) (nowClock o).
Proof.
  intros [Ht [Hp Hc]] H1 H2. split; [lia|].
  unfold restartedAt, tick, attemptRestart.
  destruct (isRestarting s) eqn:Hcool; [cbn; rewrite Hcool; now split|].
  assert (t <= lastProgressTime s
          /\ (if isRestarting s
              then exists ready, sleeper s = Some ready /\ t + RestartSleep config <= ready
              else t + RestartSleep config <= nowClock o)) as Hsame.
  { rewrite Hcool. split; lia. }
  destruct (restartContainer config (docker o)) as [[e|] effs];
    (destruct (fetched o) as [err|height];
     [|destruct (lastBlockHeight s <? height);
       [cbn; rewrite ?Hcool; split; lia|];
       destruct (height =? lastBlockHeight s);
       [|cbn; rewrite ?Hcool; split; lia]];
     destruct (StallTimeout config <? sinceClock o - lastProgressTime s);
     cbn; try exact Hsame).
  all: split; [lia|]; eexists; split; [reflexivity|lia].
Qed.

Lemma restartedAt_wake (config : Config) (t : Z) (s : Monitor) (clock u ready : Z) :
  t <= clock /\ restartedAt config t s clock ->
  clock <= u -> sleeper s = Some ready -> ready <= u ->
  t <= u /\ restartedAt config t (fst (wake s)) u.
Proof.
  intros [Ht [Hp Hc]] H1 Hsl H2. split; [lia|].
  unfold restartedAt. cbn. split; [exact Hp|].
  destruct (isRestarting s); [|lia].
  destruct Hc as (ready' & Hsl' & Hready). rewrite Hsl in Hsl'.
  injection Hsl' as <-. lia.
Qed.

(** X8. After a tick at which the restart succeeded, with [t] the clock
    read right after it, and as long as clocks do not go back and the
    goroutine does not wake before its sleep is over: no tick fetches
    before [t] plus the cooldown, and every later restart attempt comes
    more than the stall timeout after [t] and not before [t] plus the
    cooldown.  Restarts are at least the longer of the two apart. *)
Theorem restarts_are_spaced
        (config : Config) (s0 : Monitor) (o0 : Obs) (evs : list Event) :
  goroutines (snd (tick config s0 o0)) = 1%nat ->
  timed config (fst (tick config s0 o0)) (nowClock o0) evs = true ->
  forall pre o post,
    evs = pre ++ Tick o :: post ->
    (queries (snd (tick config (fst (run config (fst (tick config s0 o0)) pre)) o)) = 1%nat ->
     nowClock o0 + RestartSleep config <= sinceClock o)
    /\ (restarts (snd (tick config (fst (run config (fst (tick config s0 o0)) pre)) o)) = 1%nat ->
        nowClock o0 + RestartSleep config <= sinceClock o
        /\ StallTimeout config < sinceClock o - nowClock o0).
Proof.
  intros Hgo Ht pre o post ->.
  pose proof (restartedAt_after_success config s0 o0 Hgo) as Hstart.
  destruct (timed_invariant_at config
              (fun s c => nowClock o0 <= c /\ restartedAt config (nowClock o0) s c)
              (restartedAt_tick config (nowClock o0))
              (restartedAt_wake config (nowClock o0))
              pre (Tick o :: post) _ _ Ht (conj (Z.le_refl _) Hstart))
    as [[Hclk [Hp Hc]] Hrest].
  cbn [timed] in Hrest. apply andb_true_iff in Hrest as [Hrest _].
  apply andb_true_iff in Hrest as [Hrest _].
  rewrite tick_queries, tick_restarts.
  destruct (isRestarting (fst (run config (fst (tick config s0 o0)) pre)));
    [split; discriminate|].
  split; [intros _; lia|].
  intros Hover.
  assert (overdue config (fst (run config (fst (tick config s0 o0)) pre)) o = true) as Hov.
  { destruct (fetched o) as [e|h];
      [|destruct (h =? lastBlockHeight (fst (run config (fst (tick config s0 o0)) pre)))];
      destruct (overdue config (fst (run config (fst (tick config s0 o0)) pre)) o);
      easy. }
  unfold overdue in Hov. lia.
Qed.

Lemma restarts_are_spaced_witness :
  let s1 := fst (tick Sample.defaults Sample.at100 (Sample.sample 100 330)) in
  let pre := map Tick (Sample.samples 100 360 30 30) ++ [Wake (1230 * Sample.second)] in
  restarts (snd (tick Sample.defaults (fst (run Sample.defaults s1 pre))
                      (Sample.sample 100 1260))) = 1%nat
  /\ 330 * Sample.second + RestartSleep Sample.defaults <= 1260 * Sample.second
  /\ StallTimeout Sample.defaults < 1260 * Sample.second - 330 * Sample.second.
Proof.
  cbv zeta.
  assert (restarts (snd (tick Sample.defaults
            (fst (run Sample.defaults
                    (fst (tick Sample.defaults Sample.at100 (Sample.sample 100 330)))
                    (map Tick (Sample.samples 100 360 30 30) ++ [Wake (1230 * Sample.second)])))
            (Sample.sample 100 1260))) = 1%nat) as Hr by (vm_compute; reflexivity).
  split; [exact Hr|].
  refine (proj2 (restarts_are_spaced Sample.defaults Sample.at100 (Sample.sample 100 330)
                   ((map Tick (Sample.samples 100 360 30 30) ++ [Wake (1230 * Sample.second)])
                      ++ [Tick (Sample.sample 100 1260)])
                   _ _
                   (map Tick (Sample.samples 100 360 30 30) ++ [Wake (1230 * Sample.second)])
                   (Sample.sample 100 1260) [] eq_refl) Hr).
  - vm_compute. reflexivity.
  - vm_compute. reflexivity.
Defined.

(** ** Bookkeeping *)

(** X9. The recorded height is the height of the last fetch that
    succeeded outside the cooldown: such a tick records what it fetched,
    in every branch (progress, stall, decrease, with or without a
    restart); a failed fetch, a skipped tick, a restart and the wake-up of
    the goroutine leave the recorded height alone. *)
Theorem recorded_height_is_last_fetched (config : Config) (s : Monitor) (ev : Event) :
  lastBlockHeight (fst (step config s ev)) =
  match ev with
  | Tick o =>
      if isRestarting s then lastBlockHeight s
      else match fetched o with
           | inr height => height
           | inl _ => lastBlockHeight s
           end
  | Wake _ => lastBlockHeight s
  end.
Proof.
  destruct ev as [o|t]; [|reflexivity].
  unfold step, tick, attemptRestart.
  destruct (isRestarting s); [reflexivity|].
  destruct (restartContainer config (docker o)) as [[e|] effs];
    (destruct (fetched o) as [err|height];
     [|destruct (lastBlockHeight s <? height); [reflexivity|];
       destruct (height =? lastBlockHeight s) eqn:Heq; [|reflexivity]];
     destruct (StallTimeout config <? sinceClock o - lastProgressTime s);
     cbn; try reflexivity; lia).
Qed.

(** X10. A tick resets the progress time, to the clock it reads last,
    exactly when it fetched a height different from the recorded one or
    its restart succeeded (a goroutine was started); every other tick,
    and the wake-up of the goroutine, leave the progress time as it
    was. *)
Theorem progress_time_resets (config : Config) (s : Monitor) (o : Obs) :
  lastProgressTime (fst (tick config s o)) =
  (if negb (isRestarting s)
      && (match fetched o with
          | inr height => negb (height =? lastBlockHeight s)
          | inl _ => false
          end
          || Nat.eqb (goroutines (snd (tick config s o))) 1)
   then nowClock o
   else lastProgressTime s)
  /\ lastProgressTime (fst (wake s)) = lastProgressTime s.
Proof.
  split; [|reflexivity].
  unfold tick, attemptRestart, restartContainer.
  destruct (isRestarting s); [reflexivity|].
  destruct (fetched o) as [err|height].
  - destruct (StallTimeout config <? sinceClock o - lastProgressTime s);
      [|reflexivity].
    destruct (String.eqb (ContainerName config) ""); [reflexivity|].
    destruct (cmdErr (docker o)); reflexivity.
  - destruct (lastBlockHeight s <? height) eqn:Hlt.
    + assert ((height =? lastBlockHeight s) = false) as -> by lia. reflexivity.
    + destruct (height =? lastBlockHeight s); [|reflexivity].
      destruct (StallTimeout config <? sinceClock o - lastProgressTime s);
        [|reflexivity].
      destruct (String.eqb (ContainerName config) ""); [reflexivity|].
      destruct (cmdErr (docker o)); reflexivity.
Qed.

(** ** The outcomes of the fetch *)

Section FetchOutcomes.

Context {float64 : Type}.
Variable ParseFloat : string -> option float64.
Variable int64_of_float : float64 -> Z.
Variable Decode : string -> option (PrometheusResponse float64).
Variable Get : string -> HttpResult.

(** X11. [queryBlockHeight] panics exactly when the structured endpoint
    answers 200 with a body that decodes, whose status is "success",
    whose result set is not empty, and whose first result has a value
    array of fewer than two elements; every other answer makes it
    return. *)
Theorem panics_exactly_on_short_value (config : Config) :
  (exists msg, queryBlockHeight ParseFloat int64_of_float Decode Get config = Panicked msg)
  <-> exists body promResp first others,
        Get (queryURL config) = Response StatusOK body
        /\ decodeBody Decode body = Some promResp
        /\ Status _ promResp = "success"
        /\ Result _ (Data _ promResp) = first :: others
        /\ (List.length (Value _ first) < 2)%nat.
Proof.
  unfold queryBlockHeight. split.
  - intros [msg H].
    destruct (Get (queryURL config)) as [err|code body]; [discriminate|].
    destruct (code =? StatusOK) eqn:Hcode; [|discriminate].
    apply Z.eqb_eq in Hcode. subst code. cbn [negb] in H.
    destruct (decodeBody Decode body) as [promResp|] eqn:Hdec; [|discriminate].
    destruct (String.eqb (Status _ promResp) "success") eqn:Hstatus; [|discriminate].
    apply String.eqb_eq in Hstatus.
    destruct (Result _ (Data _ promResp)) as [|first others] eqn:Hres; [discriminate|].
    cbn [List.length Nat.eqb negb orb] in H.
    exists body, promResp, first, others. repeat split; auto.
    destruct (nth_error (Value _ first) 1) as [v|] eqn:Hnth.
    + destruct v; try discriminate. now destruct (ParseFloat s).
    + apply nth_error_None in Hnth. lia.
  - intros (body & promResp & first & others & -> & Hdec & Hstatus & Hres & Hlen).
    change (negb (StatusOK =? StatusOK)) with false. cbv iota.
    rewrite Hdec, Hstatus, Hres, String.eqb_refl. cbn [List.length Nat.eqb negb orb].
    assert (nth_error (Value _ first) 1 = None) as -> by (apply nth_error_None; lia).
    now eexists.
Qed.

(** X12. When the structured endpoint answers 200 with a body that
    decodes, status "success", and a first result whose second value
    element is a string that parses as a float, the fetch returns that
    number truncated: the other results, the first value element and the
    text endpoint play no part. *)
Theorem structured_answer_is_used
        (config : Config) (body : Body) (promResp : PrometheusResponse float64)
        (first : PrometheusResult float64) (others : list (PrometheusResult float64))
        (stamp : JSONValue float64) (valueStr : string) (more : list (JSONValue float64))
        (v : float64) :
  Get (queryURL config) = Response StatusOK body ->
  decodeBody Decode body = Some promResp ->
  Status _ promResp = "success" ->
  Result _ (Data _ promResp) = first :: others ->
  Value _ first = stamp :: JString valueStr :: more ->
  ParseFloat valueStr = Some v ->
  queryBlockHeight ParseFloat int64_of_float Decode Get config
  = Returned (inr (int64_of_float v)).
Proof.
  intros Hget Hdec Hstatus Hres Hval Hparse. unfold queryBlockHeight.
  rewrite Hget. change (negb (StatusOK =? StatusOK)) with false. cbv iota.
  rewrite Hdec, Hstatus, Hres, String.eqb_refl. cbn [List.length Nat.eqb negb orb].
  rewrite Hval. cbn [nth_error]. now rewrite Hparse.
Qed.

(** The error of the text fetch names its cause. *)
Lemma text_error_cause (config : Config) (e : FetchError) :
  queryBlockHeightText ParseFloat int64_of_float Get config = inl e ->
  match e with
  | ErrFetchMetrics err => Get (metricsURL config) = GetError err
  | ErrMetricsStatus code =>
      code <> StatusOK /\ exists body, Get (metricsURL config) = Response code body
  | ErrReadBody err => Get (metricsURL config) = Response StatusOK (BodyError err)
  | ErrMetricNotFound name =>
      name = MetricName config
      /\ exists content,
           Get (metricsURL config) = Response StatusOK (BodyBytes content)
           /\ forall l w, In l (strings.SplitLines content) ->
                          ~ carries ParseFloat config l w
  end.
Proof.
  unfold queryBlockHeightText.
  destruct (Get (metricsURL config)) as [err|code body].
  - intros H. injection H as <-. reflexivity.
  - destruct (code =? StatusOK) eqn:Hcode; cbn [negb].
    + apply Z.eqb_eq in Hcode. subst code.
      destruct body as [content|err].
      * intros H.
        pose proof (scanLines_result ParseFloat int64_of_float config
                      (strings.SplitLines content)) as Hres.
        rewrite H in Hres. destruct Hres as [-> Hnone].
        split; [reflexivity|]. now exists content.
      * intros H. injection H as <-. reflexivity.
    + intros H. injection H as <-. split; [lia|]. now exists body.
Qed.

(** X13. An error returned by [queryBlockHeight] is always the error of
    the text fetch, the structured query having failed in one of the
    listed ways, and it names its cause: a transport error of the text
    endpoint, its status other than 200, its body that could not be read,
    or a body that was read and has no line carrying a value for the
    metric. *)
Theorem fetch_error_names_its_cause (config : Config) (e : FetchError) :
  queryBlockHeight ParseFloat int64_of_float Decode Get config = Returned (inl e) ->
  StructuredFailure ParseFloat Decode Get config
  /\ queryBlockHeightText ParseFloat int64_of_float Get config = inl e
  /\ match e with
     | ErrFetchMetrics err => Get (metricsURL config) = GetError err
     | ErrMetricsStatus code =>
         code <> StatusOK /\ exists body, Get (metricsURL config) = Response code body
     | ErrReadBody err => Get (metricsURL config) = Response StatusOK (BodyError err)
     | ErrMetricNotFound name =>
         name = MetricName config
         /\ exists content,
              Get (metricsURL config) = Response StatusOK (BodyBytes content)
              /\ forall l w, In l (strings.SplitLines content) ->
                             ~ carries ParseFloat config l w
     end.
Proof.
  intros H.
  assert (StructuredFailure ParseFloat Decode Get config
          /\ queryBlockHeightText ParseFloat int64_of_float Get config = inl e) as [Hf Ht].
  { unfold queryBlockHeight in H.
    destruct (Get (queryURL config)) as [err|code body] eqn:Hget.
    { split; [now apply TransportFails with (err := err) | congruence]. }
    destruct (code =? StatusOK) eqn:Hcode; cbn [negb] in H;
      [|split; [apply StatusNotOK with (code := code) (body := body); [exact Hget | lia]
               | congruence]].
    apply Z.eqb_eq in Hcode. subst code.
    destruct (decodeBody Decode body) as [promResp|] eqn:Hdec;
      [|split; [now apply Undecodable with (body := body) | congruence]].
    destruct (String.eqb (Status _ promResp) "success") eqn:Hstatus; cbn [negb orb] in H;
      [|split; [apply StatusNotSuccess with (body := body) (promResp := promResp);
                [exact Hget | exact Hdec | now apply String.eqb_neq]
               | congruence]].
    apply String.eqb_eq in Hstatus.
    destruct (Result _ (Data _ promResp)) as [|first others] eqn:Hres; cbn [List.length Nat.eqb] in H;
      [split; [now apply EmptyResultSet with (body := body) (promResp := promResp)
              | congruence]|].
    destruct (nth_error (Value _ first) 1) as [v|] eqn:Hnth; [|discriminate].
    assert ((exists valueStr, v = JString valueStr)
            \/ (forall valueStr, v <> JString valueStr)) as [[valueStr ->]|Hnot].
    { destruct v; try (right; discriminate). left. now eexists. }
    - destruct (ParseFloat valueStr) eqn:Hparse; [discriminate|].
      split; [|congruence].
      now apply ValueUnparsable with (body := body) (promResp := promResp)
                                     (first := first) (others := others)
                                     (valueStr := valueStr).
    - split.
      + now apply ValueNotString with (body := body) (promResp := promResp)
                                      (first := first) (others := others) (v := v).
      + destruct v; congruence. }
  split; [exact Hf|]. split; [exact Ht|]. now apply text_error_cause.
Qed.

End FetchOutcomes.

Lemma structured_answer_is_used_witness :
  queryBlockHeight Sample.ParseFloat Sample.int64_of_float Scenario.goodAnswer
    (Sample.always "{}") Sample.defaults
  = Returned (inr 4217).
Proof.
  exact (structured_answer_is_used Sample.ParseFloat Sample.int64_of_float
           Scenario.goodAnswer (Sample.always "{}") Sample.defaults
           (BodyBytes "{}") _ _ [] (JNumber (1700000000, O)) "4217.9" [] (42179, 1%nat)
           eq_refl eq_refl eq_refl eq_refl eq_refl eq_refl).
Defined.

Lemma fetch_error_names_its_cause_witness :
  queryBlockHeightText Sample.ParseFloat Sample.int64_of_float
    Sample.unreachable Sample.defaults
  = inl (ErrFetchMetrics "connection refused")
  /\ Sample.unreachable (metricsURL Sample.defaults) = GetError "connection refused".
Proof.
  destruct (fetch_error_names_its_cause Sample.ParseFloat Sample.int64_of_float
              Sample.noJSON Sample.unreachable Sample.defaults
              (ErrFetchMetrics "connection refused") eq_refl) as (_ & Ht & Hc).
  split; [exact Ht | exact Hc].
Defined.

(** ** Lines and fields *)

Lemma append_assoc_string (a b c : string) :
  ((a ++ b) ++ c)%string = (a ++ (b ++ c))%string.
Proof.
  induction a as [|x a IH]; [reflexivity|]. cbn. now rewrite IH.
Qed.

Lemma append_empty_r (a : string) : (a ++ "")%string = a.
Proof.
  induction a as [|x a IH]; [reflexivity|]. cbn. now rewrite IH.
Qed.

Lemma allBytes_app (p : ascii -> bool) (a b : string) :
  allBytes p (a ++ b)%string = allBytes p a && allBytes p b.
Proof.
  induction a as [|x a IH]; [reflexivity|]. cbn. now rewrite IH, andb_assoc.
Qed.

Lemma HasPrefix_append (name rest : string) :
  strings.HasPrefix (name ++ rest)%string name = true.
Proof.
  unfold strings.HasPrefix. induction name as [|c name IH]; [now destruct rest|].
  cbn. now destruct (ascii_dec c c).
Qed.

(** No white space character starts with a plain byte. *)
Lemma spaceLen_plain (c : ascii) (rest : string) :
  plainByte c = true -> strings.spaceLen (String c rest) = 0%nat.
Proof.
  unfold plainByte, asciiSpace, strings.spaceLen.
  intros H. apply andb_true_iff in H as [Hlt Hns].
  apply negb_true_iff in Hns. rewrite Hns.
  apply N.ltb_lt in Hlt.
  assert (forall n, (128 <= n)%N -> (N_of_ascii c =? n)%N = false) as Hne.
  { intros n Hn. apply N.eqb_neq. lia. }
  destruct rest as [|c1 r1]; [reflexivity|].
  rewrite (Hne 194%N) by lia. cbn [andb].
  destruct r1 as [|c2 r2]; [reflexivity|].
  rewrite (Hne 225%N), (Hne 226%N), (Hne 227%N) by lia. reflexivity.
Qed.

(** A byte that starts no white space character is no ASCII white
    space. *)
Lemma spaceLen_zero (c : ascii) (rest : string) :
  strings.spaceLen (String c rest) = 0%nat -> asciiSpace c = false.
Proof.
  unfold asciiSpace, strings.spaceLen.
  now destruct ((9 <=? N_of_ascii c) && (N_of_ascii c <=? 13) || (N_of_ascii c =? 32))%N.
Qed.

(** The scan takes a plain word into the field it is collecting. *)
Lemma scanFields_plain (word field rest : string) :
  plain word = true ->
  strings.scanFields 0 field (word ++ rest)%string
  = strings.scanFields 0 (field ++ word)%string rest.
Proof.
  revert field. induction word as [|c word IH]; intros field Hplain.
  - now rewrite append_empty_r.
  - cbn [plain allBytes] in Hplain. apply andb_true_iff in Hplain as [Hc Hword].
    change (String c word ++ rest)%string with (String c (word ++ rest)%string).
    cbn [strings.scanFields]. rewrite (spaceLen_plain c _ Hc).
    rewrite (IH _ Hword), append_assoc_string. reflexivity.
Qed.

(** An ASCII white space byte is a white space character of one
    byte. *)
Lemma spaceLen_space (c : ascii) (rest : string) :
  asciiSpace c = true -> strings.spaceLen (String c rest) = 1%nat.
Proof.
  unfold asciiSpace, strings.spaceLen. now intros ->.
Qed.

(** The fields of a line that begins with two plain words separated by
    an ASCII white space byte: the two words come first. *)
Lemma Fields_two_words (first value rest : string) (sep : ascii) :
  plain first = true -> first <> "" ->
  asciiSpace sep = true ->
  plain value = true -> value <> "" ->
  lineRest rest ->
  exists more,
    strings.Fields (first ++ String sep (value ++ rest))%string = first :: value :: more.
Proof.
  intros Hf Hfne Hsep Hv Hvne Hrest. unfold strings.Fields.
  rewrite (scanFields_plain first "" _ Hf). cbn [append].
  cbn [strings.scanFields]. rewrite (spaceLen_space sep _ Hsep).
  assert (strings.flush first = [first]) as -> by (now destruct first).
  rewrite (scanFields_plain value "" rest Hv). cbn [append app].
  destruct Hrest as [-> | (c & more & -> & Hc)].
  - exists []. cbn. now destruct value.
  - exists (strings.scanFields 0 "" more).
    cbn [strings.scanFields]. rewrite (spaceLen_space c _ Hc).
    now destruct value.
Qed.

Lemma SplitLines_nonempty (s : string) : strings.SplitLines s <> [].
Proof.
  destruct s as [|c rest]; cbn; [discriminate|].
  destruct (Ascii.eqb c "010"); [discriminate|].
  destruct (strings.SplitLines rest); discriminate.
Qed.

(** X14. Cutting a body into lines loses nothing and leaves no line feed
    behind: the lines joined by line feeds are the body again, there is
    always at least one line, and no line has a line feed; and a
    non-empty list of lines without line feeds is what its joining cuts
    into. *)
Theorem SplitLines_joins_back (s : string) :
  joinLines (strings.SplitLines s) = s
  /\ strings.SplitLines s <> []
  /\ Forall (fun line => hasLF line = false) (strings.SplitLines s)
  /\ forall lines,
       lines <> [] ->
       Forall (fun line => hasLF line = false) lines ->
       strings.SplitLines (joinLines lines) = lines.
Proof.
  split; [|split; [apply SplitLines_nonempty|split]].
  - induction s as [|c rest IH]; [reflexivity|].
    pose proof (SplitLines_nonempty rest) as Hne.
    cbn [strings.SplitLines]. destruct (Ascii.eqb c "010") eqn:Hc.
    + apply Ascii.eqb_eq in Hc. subst c.
      destruct (strings.SplitLines rest) as [|piece pieces]; [now destruct Hne|].
      cbn [joinLines] in *. now rewrite IH.
    + destruct (strings.SplitLines rest) as [|piece pieces]; [now destruct Hne|].
      destruct pieces as [|piece' pieces]; cbn [joinLines] in *; now rewrite <- IH.
  - induction s as [|c rest IH]; [now repeat constructor|].
    pose proof (SplitLines_nonempty rest) as Hne.
    cbn [strings.SplitLines]. destruct (Ascii.eqb c "010") eqn:Hc.
    + now constructor.
    + destruct (strings.SplitLines rest) as [|piece pieces]; [now destruct Hne|].
      inversion IH as [|? ? Hpiece Hpieces]; subst.
      constructor; [|exact Hpieces]. cbn. now rewrite Hc.
  - intros lines Hne Hall.
    induction Hall as [|line lines Hline Hall IH]; [now destruct Hne|].
    assert (forall tail pieces,
              strings.SplitLines tail = pieces -> pieces <> [] ->
              strings.SplitLines (line ++ tail)%string
              = match pieces with
                | piece :: pieces' => (line ++ piece)%string :: pieces'
                | [] => []
                end) as Hglue.
    { clear IH Hne Hall lines. induction line as [|c line IHl]; intros tail pieces <- Hp.
      - cbn [append]. now destruct (strings.SplitLines tail).
      - cbn in Hline. apply orb_false_iff in Hline as [Hc Hline].
        cbn [append strings.SplitLines]. rewrite Hc.
        rewrite (IHl Hline tail _ eq_refl Hp).
        now destruct (strings.SplitLines tail). }
    destruct lines as [|line' lines].
    + cbn [joinLines]. rewrite <- (append_empty_r line) at 1.
      now rewrite (Hglue "" [""] eq_refl), append_empty_r.
    + change (joinLines (line :: line' :: lines))
        with (line ++ LF ++ joinLines (line' :: lines))%string.
      rewrite (Hglue (LF ++ joinLines (line' :: lines))%string
                     ("" :: line' :: lines)).
      * now rewrite append_empty_r.
      * cbn. f_equal. apply IH. discriminate.
      * discriminate.
Qed.

Lemma SplitLines_joins_back_witness :
  strings.SplitLines (joinLines ["# HELP m"; "m 42"; ""]) = ["# HELP m"; "m 42"; ""].
Proof.
  apply (proj2 (proj2 (proj2 (SplitLines_joins_back "")))).
  - discriminate.
  - repeat constructor.
Defined.

(** The fields the scan returns, when the field being collected has no
    ASCII white space. *)
Lemma scanFields_fields (s : string) :
  forall skip field,
    allBytes (fun c => negb (asciiSpace c)) field = true ->
    Forall (fun f => f <> "" /\ allBytes (fun c => negb (asciiSpace c)) f = true)
           (strings.scanFields skip field s).
Proof.
  assert (forall field,
            allBytes (fun c => negb (asciiSpace c)) field = true ->
            Forall (fun f => f <> "" /\ allBytes (fun c => negb (asciiSpace c)) f = true)
                   (strings.flush field)) as Hflush.
  { intros [|c field] H; [constructor|]. constructor; [|constructor].
    split; [discriminate | exact H]. }
  induction s as [|c rest IH]; intros skip field Hfield; [now apply Hflush|].
  cbn [strings.scanFields]. destruct skip as [|k]; [|now apply IH].
  destruct (strings.spaceLen (String c rest)) as [|k] eqn:Hlen.
  - apply IH. rewrite allBytes_app, Hfield. cbn.
    now rewrite (spaceLen_zero c rest Hlen).
  - apply Forall_app. split; [now apply Hflush | now apply IH].
Qed.

(** X15. The fields a line is cut into are never empty and hold no ASCII
    white space (tab, line feed, vertical tab, form feed, carriage return,
    space): a trailing carriage return or a run of spaces never ends up
    in the value that is parsed. *)
Theorem Fields_are_words (line : string) :
  Forall (fun f => f <> "" /\ allBytes (fun c => negb (asciiSpace c)) f = true)
         (strings.Fields line).
Proof.
  unfold strings.Fields. now apply scanFields_fields.
Qed.

Section ExpositionLine.

Context {float64 : Type}.
Variable ParseFloat : string -> option float64.
Variable int64_of_float : float64 -> Z.
Variable Get : string -> HttpResult.

(** X16. Among the lines of a 200 answer of the text endpoint, a line
    made of the metric name, anything plain right after it (a label set,
    or more letters of a longer metric name), a space or tab, a plain
    numeral that parses, and then nothing or white space and anything (a
    timestamp, a carriage return), is read, and its value returned
    truncated, provided no line before it starts with the metric name. *)
Theorem exposition_line_is_read
        (config : Config) (content : string) (before after : list string)
        (labels value rest : string) (sep : ascii) (v : float64) :
  Get (metricsURL config) = Response StatusOK (BodyBytes content) ->
  strings.SplitLines content
  = before ++ ((MetricName config ++ labels) ++ String sep (value ++ rest))%string :: after ->
  (forall l, In l before -> strings.HasPrefix l (MetricName config) = false) ->
  plain (MetricName config ++ labels) = true ->
  (MetricName config ++ labels)%string <> "" ->
  asciiSpace sep = true ->
  plain value = true ->
  value <> "" ->
  lineRest rest ->
  ParseFloat value = Some v ->
  queryBlockHeightText ParseFloat int64_of_float Get config = inr (int64_of_float v).
Proof.
  intros Hget Hsplit Hbefore Hfirst Hne Hsep Hvalue Hvne Hrest Hparse.
  unfold queryBlockHeightText. rewrite Hget. cbn [negb]. 
  change (negb (StatusOK =? StatusOK)) with false. cbv iota.
  rewrite Hsplit. clear Hsplit Hget.
  induction before as [|l before IH].
  - cbn [app]. apply scanLines_hit. split.
    + rewrite append_assoc_string. apply HasPrefix_append.
    + destruct (Fields_two_words _ value rest sep Hfirst Hne Hsep Hvalue Hvne Hrest)
        as [more Hf].
      now exists (MetricName config ++ labels)%string, value, more.
  - rewrite <- app_comm_cons, scanLines_skip.
    + apply IH. intros l' Hin. apply Hbefore. now right.
    + intros w [Hpre _]. rewrite (Hbefore l) in Hpre; [discriminate | now left].
Qed.

End ExpositionLine.

Lemma exposition_line_is_read_witness :
  queryBlockHeightText Sample.ParseFloat Sample.int64_of_float
    (Sample.always Scenario.exposition) Sample.defaults = inr 118.
Proof.
  apply (exposition_line_is_read Sample.ParseFloat Sample.int64_of_float
           (Sample.always Scenario.exposition) Sample.defaults Scenario.exposition
           ["# HELP near_indexer_streaming_current_block_height Current height";
            "near_block_processing_time_sum 12.5"]
           ["near_indexer_streaming_current_block_height 7"; ""]
           ("{shard=" ++ Scenario.quote ++ "0" ++ Scenario.quote ++ "}")%string
           "118.0" " 1700000000" " "%char (1180, 1%nat)).
  - reflexivity.
  - reflexivity.
  - intros l [<-|[<-|[]]]; reflexivity.
  - reflexivity.
  - discriminate.
  - reflexivity.
  - reflexivity.
  - discriminate.
  - right. eexists _, _. split; reflexivity.
  - reflexivity.
Defined.

(** ** Startup *)


(** A query interval of zero seconds takes the process down in
    [time.NewTicker]. *)
Lemma zero_interval_panics :
  startup Scenario.ParseDuration Scenario.zeroInterval = TickerPanic.
Proof.
  reflexivity.
Qed.

(** ** Further examples *)

Lemma goroutines_never_overlap_witness :
  goroutines (snd (tick Sample.defaults
                     (fst (run Sample.defaults (fst (start 0 (inr 100) 0))
                             (map Tick (Sample.samples 100 30 30 10))))
                     (Sample.sample 100 330))) = 1%nat
  /\ sleeper (fst (run Sample.defaults (fst (start 0 (inr 100) 0))
                     (map Tick (Sample.samples 100 30 30 10)))) = None.
Proof.
  assert (goroutines (snd (tick Sample.defaults
                             (fst (run Sample.defaults (fst (start 0 (inr 100) 0))
                                     (map Tick (Sample.samples 100 30 30 10))))
                             (Sample.sample 100 330))) = 1%nat) as Hgo
    by (vm_compute; reflexivity).
  split; [exact Hgo|].
  exact (proj2 (goroutines_never_overlap Sample.defaults 0 0 (inr 100)
                  (map Tick (Sample.samples 100 30 30 10) ++ [Tick (Sample.sample 100 330)]))
               (map Tick (Sample.samples 100 30 30 10)) (Sample.sample 100 330) []
               eq_refl Hgo).
Defined.

Lemma panics_exactly_on_short_value_witness :
  exists msg,
    queryBlockHeight Sample.ParseFloat Sample.int64_of_float Sample.shortValue
      (Sample.always "{}") Sample.defaults = Panicked msg.
Proof.
  apply (proj2 (panics_exactly_on_short_value Sample.ParseFloat Sample.int64_of_float
                  Sample.shortValue (Sample.always "{}") Sample.defaults)).
  eexists (BodyBytes "{}"), _, _, _.
  split; [reflexivity|]. split; [reflexivity|]. split; [reflexivity|].
  split; [reflexivity|]. cbn. lia.
Defined.
